(** * Battleship web service: the game model of [src/server/bs/runserver.py]

    A shallow embedding of the three model classes of the service
    ([ShipModel], [PlayerModel], [GameModel]) under Python 3 semantics, and
    the properties of the rules engine checked against it.

    Conventions.
    - A Python [int] is a [Z]; a [str] is a [string]; [None] where a value
      may be absent is [option].
    - A method that can raise returns a [Py.res]; a method that also mutates
      [self] returns the new [self] next to its outcome, and the state it
      returns with a [Raise] is the state the exception leaves behind.
    - A [dict] is a [gmap] where only membership, lookup and size are used,
      and an association list where insertion order is observed.
    - A numpy array of shape (rows, cols) is the list of its rows; the cells
      only ever hold small whole numbers, so they are [Z].
    - The assignments at the top level of the module are read one by one;
      a name whose assignment raises stays unbound, and a method body that
      reads it raises NameError. *)

From Stdlib Require Import ZArith Lia Ascii.
From stdpp Require Import base option strings list gmap relations.

Local Open Scope Z_scope.

(** ** Python values and exceptions *)

Module Py.

Inductive exn : Set :=
| TypeError | AttributeError | KeyError | IndexError | NameError.

Inductive res (A : Type) : Type :=
| Ret (a : A)
| Raise (e : exn).
Arguments Ret {A} a.
Arguments Raise {A} e.

Definition bind {A B} (c : res A) (k : A -> res B) : res B :=
  match c with
  | Ret a => k a
  | Raise e => Raise e
  end.

(** [filter(f, xs)] builds a lazy filter object; nothing is evaluated
    until it is iterated. *)
Record filter_obj (A : Type) : Type :=
  mk_filter { f_pred : A -> res bool; f_source : list A }.
Arguments mk_filter {A} f_pred f_source.

(** [filter(f, xs)]: [xs] must be iterable; [None] is not. *)
Definition filter {A} (f : A -> res bool) (xs : option (list A))
  : res (filter_obj A) :=
  match xs with
  | Some l => Ret (mk_filter f l)
  | None => Raise TypeError
  end.

(** [list(it)]: runs the iterator; the first exception of the predicate
    ends it. *)
Fixpoint run_filter {A} (f : A -> res bool) (l : list A) : res (list A) :=
  match l with
  | [] => Ret []
  | a :: l' =>
      bind (f a) (fun keep =>
      bind (run_filter f l') (fun rest =>
      Ret (if keep : bool then a :: rest else rest)))
  end.

Definition list_of {A} (it : filter_obj A) : res (list A) :=
  run_filter (f_pred A it) (f_source A it).

(** [len(it)] on a filter object: a filter object has no [__len__]. *)
Definition len_of {A} (it : filter_obj A) : res nat := Raise TypeError.

(** [list(map(f, xs))]. *)
Fixpoint list_map {A B} (f : A -> res B) (l : list A) : res (list B) :=
  match l with
  | [] => Ret []
  | a :: l' =>
      bind (f a) (fun b => bind (list_map f l') (fun bs => Ret (b :: bs)))
  end.

(** Attribute access on a [str]: none of the model's attributes
    ([sunk], [export], [register_hit]) is an attribute of [str]. *)
Definition str_getattr {A} (s : string) (name : string) : res A :=
  Raise AttributeError.

(** Reading a name: it has to be bound in the scope. *)
Definition load_name (scope : list string) (name : string) : res unit :=
  if bool_decide (name ∈ scope) then Ret tt else Raise NameError.

(** Looking a method up on an object whose class defines [methods]. *)
Definition load_method (methods : list string) (name : string) : res unit :=
  if bool_decide (name ∈ methods) then Ret tt else Raise AttributeError.

(** [dict(a, b)], two positional arguments: [dict] takes one at most. *)
Definition dict2 {A B K V : Type} `{Countable K} (a : A) (b : B)
  : res (gmap K V) :=
  Raise TypeError.

Definition builtins : list string :=
  ["len"; "list"; "filter"; "map"; "dict"; "str"; "int"].

End Py.

Import Py.

Notation "'let*' x ':=' c 'in' k" := (Py.bind c (fun x => k))
  (at level 10, x pattern, c at level 100, k at level 200, only parsing).

(** ** Module-level tables *)

Definition GRID_SIZE : nat := 10.
Definition MOVE_HIT : Z := 1.
Definition MOVE_MISS : Z := 2.

Record ship_def : Set := mk_ship_def { def_intcode : Z; def_length : Z }.

(** The catalog, as the literal spells it (the literal lacks the comma
    after its first entry). *)
Definition SHIPS : gmap string ship_def :=
  list_to_map
    [ ("carrier", mk_ship_def 1 5);
      ("battleship", mk_ship_def 2 4);
      ("cruiser", mk_ship_def 3 3);
      ("submarine", mk_ship_def 4 3);
      ("destroyer", mk_ship_def 5 2) ].

(** The marker table, as its assignment evaluates: the line hands [dict]
    two positional arguments, the lambda and the items of [SHIPS], with no
    [map] in between, so the call raises and no table is built. *)
Definition SHIPS_INTCODES : res (gmap Z string) :=
  Py.dict2 (fun s : string * ship_def => (def_intcode s.2, s.1))
           (map_to_list SHIPS).

(** The names bound at the top level of the module; [SHIPS_INTCODES] is
    one of them only if its assignment returns. *)
Definition module_globals : list string :=
  ["GAMES"; "SESSION_KEY"; "GRID_SIZE"; "SHIPS"]
  ++ match SHIPS_INTCODES with
     | Ret _ => ["SHIPS_INTCODES"]
     | Raise _ => []
     end
  ++ ["MOVE_HIT"; "MOVE_MISS"; "ShipModel"; "PlayerModel"; "GameModel"].

(** ** ShipModel *)

Module ShipModel.

Record t : Set := mk {
  id : string;
  hits : Z;
  sunk : bool;
  length : Z;
  intcode : Z
}.

(** [__init__(self, id_, length, intcode)] *)
Definition init (id_ : string) (length_ intcode_ : Z) : t :=
  {| id := id_; hits := 0; sunk := false;
     length := length_; intcode := intcode_ |}.

(** [add_hit(self)] *)
Definition add_hit (self : t) : t :=
  let self1 :=
    if hits self <? length self
    then {| id := id self; hits := hits self + 1; sunk := sunk self;
            length := length self; intcode := intcode self |}
    else self in
  if hits self1 >=? length self1
  then {| id := id self1; hits := hits self1; sunk := true;
          length := length self1; intcode := intcode self1 |}
  else self1.

Record exported : Set := mk_exported {
  e_hits : Z; e_sunk : bool; e_length : Z; e_intcode : Z
}.

(** [export(self)] *)
Definition export (self : t) : exported :=
  {| e_hits := hits self; e_sunk := sunk self;
     e_length := length self; e_intcode := intcode self |}.

(** [get_ship_id_by_intcode(cls, intcode)] *)
Definition get_ship_id_by_intcode (intcode_ : Z) : res string :=
  let* _ := Py.load_name (["cls"; "intcode"] ++ module_globals ++ Py.builtins)
                         "SHIPS_INTCODES" in
  let* table := SHIPS_INTCODES in
  match table !! intcode_ with
  | Some ship_id => Ret ship_id
  | None => Raise KeyError
  end.

(** [make_ship_by_id(cls, ship_id)] *)
Definition make_ship_by_id (ship_id : string) : res t :=
  match SHIPS !! ship_id with
  | Some ship_def => Ret (init ship_id (def_length ship_def) (def_intcode ship_def))
  | None => Raise KeyError
  end.

(** [n] calls of [add_hit] in a row. *)
Definition add_hits (n : nat) (self : t) : t := Nat.iter n add_hit self.

End ShipModel.

(** ** numpy arrays of two dimensions *)

Module Np.

Abbreviation ndarray := (list (list Z)).

(** [np.zeros((rows, cols))] *)
Definition zeros (rows cols : nat) : ndarray :=
  replicate rows (replicate cols 0).

Definition nrows (a : ndarray) : nat := List.length a.
Definition ncols (a : ndarray) : nat := List.length (List.hd [] a).

Definition has_shape (rows cols : nat) (a : ndarray) : bool :=
  Nat.eqb (List.length a) rows
  && forallb (fun row => Nat.eqb (List.length row) cols) a.

(** An integer index on an axis of size [n]: [-n <= i < n], the negative
    ones counting from the end; anything else is an IndexError. *)
Definition norm_index (n : nat) (i : Z) : res nat :=
  if (0 <=? i) && (i <? Z.of_nat n) then Ret (Z.to_nat i)
  else if (- Z.of_nat n <=? i) && (i <? 0) then Ret (Z.to_nat (i + Z.of_nat n))
  else Raise IndexError.

(** One bound of a slice on an axis of size [n]: negative bounds count
    from the end, and the bound is clamped into [0, n]. *)
Definition clamp (n : nat) (i : Z) : nat :=
  if i <? 0 then Z.to_nat (Z.max (i + Z.of_nat n) 0)
  else Z.to_nat (Z.min i (Z.of_nat n)).

(** The indices selected by [start:stop] on an axis of size [n]. *)
Definition slice (n : nat) (start stop : Z) : list nat :=
  seq (clamp n start) (clamp n stop - clamp n start)%nat.

(** [a[y][x]] read *)
Definition getitem2 (a : ndarray) (y x : Z) : res Z :=
  let* r := norm_index (nrows a) y in
  match a !! r with
  | None => Raise IndexError
  | Some row =>
      let* c := norm_index (List.length row) x in
      match row !! c with
      | Some v => Ret v
      | None => Raise IndexError
      end
  end.

(** [a[y][x] = v] *)
Definition setitem2 (a : ndarray) (y x : Z) (v : Z) : res ndarray :=
  let* r := norm_index (nrows a) y in
  match a !! r with
  | None => Raise IndexError
  | Some row =>
      let* c := norm_index (List.length row) x in
      Ret (<[r := <[c := v]> row]> a)
  end.

(** A one-dimensional view into the array: the cells it aliases, as
    (row, column) positions, in order. *)
Abbreviation view := (list (nat * nat)).

Definition cell (a : ndarray) (p : nat * nat) : Z :=
  default 0 (a !! p.1 ≫= fun row => row !! p.2).

Definition view_values (a : ndarray) (v : view) : list Z := map (cell a) v.

(** [a[y][x0:x1]] *)
Definition row_slice (a : ndarray) (y x0 x1 : Z) : res view :=
  let* r := norm_index (nrows a) y in
  Ret (map (fun c => (r, c)) (slice (ncols a) x0 x1)).

(** [a[y0:y1, x]] *)
Definition col_slice (a : ndarray) (y0 y1 x : Z) : res view :=
  let* c := norm_index (ncols a) x in
  Ret (map (fun r => (r, c)) (slice (nrows a) y0 y1)).

(** [v.fill(x)] through the view *)
Definition fill (a : ndarray) (v : view) (x : Z) : ndarray :=
  foldl (fun a' p => alter (fun row => <[p.2 := x]> row) p.1 a') a v.

(** [a.tolist()] *)
Definition tolist (a : ndarray) : list (list Z) := a.

End Np.

(** ** PlayerModel *)

Module PlayerModel.

Record t : Type := mk {
  id : string;
  session_id : string;
  moves_map : gmap (Z * Z) bool;
  moves_index : list bool;
  ships : gmap string ShipModel.t;
  grid : Np.ndarray;
  grid_attempts : Np.ndarray;
  sunk_all : bool
}.

(** [__init__(self)]; the two fresh uuid strings are arguments here. *)
Definition init (id_ session_id_ : string) : t :=
  {| id := id_; session_id := session_id_;
     moves_map := ∅; moves_index := []; ships := ∅;
     grid := Np.zeros GRID_SIZE GRID_SIZE;
     grid_attempts := Np.zeros GRID_SIZE GRID_SIZE;
     sunk_all := false |}.

Definition set_ships (self : t) (v : gmap string ShipModel.t) : t :=
  {| id := id self; session_id := session_id self;
     moves_map := moves_map self; moves_index := moves_index self;
     ships := v; grid := grid self;
     grid_attempts := grid_attempts self; sunk_all := sunk_all self |}.

Definition set_grid (self : t) (v : Np.ndarray) : t :=
  {| id := id self; session_id := session_id self;
     moves_map := moves_map self; moves_index := moves_index self;
     ships := ships self; grid := v;
     grid_attempts := grid_attempts self; sunk_all := sunk_all self |}.

Definition set_grid_attempts (self : t) (v : Np.ndarray) : t :=
  {| id := id self; session_id := session_id self;
     moves_map := moves_map self; moves_index := moves_index self;
     ships := ships self; grid := grid self;
     grid_attempts := v; sunk_all := sunk_all self |}.

Definition set_moves (self : t) (m : gmap (Z * Z) bool) (i : list bool) : t :=
  {| id := id self; session_id := session_id self;
     moves_map := m; moves_index := i;
     ships := ships self; grid := grid self;
     grid_attempts := grid_attempts self; sunk_all := sunk_all self |}.

Definition set_sunk_all (self : t) (v : bool) : t :=
  {| id := id self; session_id := session_id self;
     moves_map := moves_map self; moves_index := moves_index self;
     ships := ships self; grid := grid self;
     grid_attempts := grid_attempts self; sunk_all := v |}.

(** The methods the class defines. *)
Definition methods : list string :=
  ["__init__"; "export"; "get_moves"; "check_session"; "has_ship";
   "check_all_ships_added"; "add_ship"; "add_ship_coord_to_grid";
   "is_space_available"; "get_ship_arr"; "parse_ship_coords"; "parse_move";
   "get_ship_at_coords"; "add_grid_attempt"; "is_sunk_all"; "register_hit"].

(** Iterating a dict yields its keys. *)
Definition iter_dict {V} (d : gmap string V) : list string :=
  (map_to_list d).*1.

Record exported : Type := mk_exported {
  e_id : string;
  e_moves_index : list bool;
  e_sunk_all : bool;
  e_grid_attempts : list (list Z);
  e_grid : option (list (list Z));
  e_ships : option (list ShipModel.exported)
}.

(** [export(self, this_player_id=None)] *)
Definition export (self : t) (this_player_id : option string) : res exported :=
  let is_this_player := bool_decide (this_player_id = Some (id self)) in
  let* ships_ :=
    (if is_this_player
     then let* l := Py.list_map (fun s : string => Py.str_getattr s "export")
                                (iter_dict (ships self)) in
          Ret (Some l)
     else Ret None) in
  Ret {| e_id := id self;
         e_moves_index := moves_index self;
         e_sunk_all := sunk_all self;
         e_grid_attempts := Np.tolist (grid self);
         e_grid := if is_this_player then Some (Np.tolist (grid self)) else None;
         e_ships := ships_ |}.

(** [get_moves(self)] *)
Definition get_moves (self : t) : list bool := moves_index self.

(** [check_session(self, session_id)] *)
Definition check_session (self : t) (session_id_ : option string) : bool :=
  bool_decide (session_id_ ≠ None)
  && bool_decide (session_id_ = Some (session_id self)).

(** [has_ship(self, ship_id)] *)
Definition has_ship (self : t) (ship_id : string) : bool :=
  bool_decide (is_Some (ships self !! ship_id)).

(** [check_all_ships_added(self)] *)
Definition check_all_ships_added (self : t) : bool :=
  Nat.eqb (size (ships self)) (size SHIPS).

(** [add_ship_coord_to_grid(self, ship_arr, ship_intit)] *)
Definition add_ship_coord_to_grid (self : t) (ship_arr : Np.view) (ship_intit : Z) : t :=
  set_grid self (Np.fill (grid self) ship_arr ship_intit).

(** [is_space_available(self, ship_arr)] *)
Definition is_space_available (self : t) (ship_arr : option Np.view) : res bool :=
  let* it := Py.filter (fun k : Z => Ret (0 <? k))
                       (Np.view_values (grid self) <$> ship_arr) in
  let* n := Py.len_of it in
  Ret (Nat.eqb n 0).

(** [get_ship_arr(self, ship_len, coords, orientation)] *)
Definition get_ship_arr (self : t) (ship_len : Z) (coords : Z * Z)
    (orientation : string) : res (option Np.view) :=
  let '(x, y) := coords in
  if String.eqb orientation "x"
  then let* v := Np.row_slice (grid self) y x (x + ship_len) in Ret (Some v)
  else if String.eqb orientation "y"
  then let* v := Np.col_slice (grid self) y (y + ship_len) x in Ret (Some v)
  else Ret None.

(** [add_ship(self, ship_id, coords, orientation)] *)
Definition add_ship (self : t) (ship_id : string) (coords : Z * Z)
    (orientation : string) : t * res bool :=
  if has_ship self ship_id then (self, Ret false) else
  match ShipModel.make_ship_by_id ship_id with
  | Raise e => (self, Raise e)
  | Ret ship =>
  match get_ship_arr self (ShipModel.length ship) coords orientation with
  | Raise e => (self, Raise e)
  | Ret ship_arr =>
  match is_space_available self ship_arr with
  | Raise e => (self, Raise e)
  | Ret available =>
  if negb available then (self, Ret false) else
  match Py.load_method methods "add_ship_coords_to_grid" with
  | Raise e => (self, Raise e)
  | Ret _ =>
      (* not reached: the class has no method of that name to run *)
      (set_ships self (<[ship_id := ship]> (ships self)), Ret true)
  end end end end.

(** [s.split(sep)] for a separator [sep] of one character: the pieces
    between the occurrences of [sep], one more than there are occurrences. *)
Fixpoint str_split (sep : Ascii.ascii) (s : string) : list string :=
  match s with
  | EmptyString => [EmptyString]
  | String c s' =>
      if Ascii.eqb c sep then EmptyString :: str_split sep s'
      else match str_split sep s' with
           | [] => [String c EmptyString]
           | part :: parts => String c part :: parts
           end
  end.

(** [parse_move(self, move_code)]; [int_] is the builtin [int] on a
    [str], with [None] for its ValueError. *)
Definition parse_move (int_ : string -> option Z) (move_code : string)
  : option (Z * Z) :=
  let parts := str_split "-"%char move_code in
  if negb (Nat.eqb (List.length parts) 2) then None else
  match parts with
  | part0 :: part1 :: _ =>
      match int_ part0 with
      | None => None
      | Some x =>
          match int_ part1 with
          | None => None
          | Some y => Some (x, y)
          end
      end
  | _ => None
  end.

(** [get_ship_at_coords(self, coords)]: the ship object found is the one
    stored in [self.ships] under the returned key. *)
Definition get_ship_at_coords (self : t) (coords : Z * Z)
  : res (option (string * ShipModel.t)) :=
  let '(x, y) := coords in
  let* intcode := Np.getitem2 (grid self) y x in
  if intcode =? 0 then Ret None else
  let* ship_id := ShipModel.get_ship_id_by_intcode intcode in
  match ships self !! ship_id with
  | Some ship => Ret (Some (ship_id, ship))
  | None => Raise KeyError
  end.

(** [add_grid_attempt(self, is_hit, coords)] *)
Definition add_grid_attempt (self : t) (is_hit : bool) (coords : Z * Z) : res t :=
  let '(x, y) := coords in
  let code := if is_hit then MOVE_HIT else MOVE_MISS in
  let* g := Np.setitem2 (grid_attempts self) y x code in
  Ret (set_grid_attempts self g).

(** [is_sunk_all(self)]: the filter runs over [self.ships] itself, which
    yields the keys. *)
Definition is_sunk_all (self : t) : res bool :=
  let* it := Py.filter
               (fun s : string =>
                  let* sunk_ := Py.str_getattr s "sunk" in Ret (negb sunk_))
               (Some (iter_dict (ships self))) in
  let* l := Py.list_of it in
  Ret (Nat.eqb (List.length l) 0).

Record hit_data : Set := mk_hit_data {
  r_hit : bool;
  r_sunk : option bool;
  r_sunk_all : bool
}.

(** The triple (status, data, message) the methods answer with. *)
Definition outcome : Set := bool * option hit_data * option string.

(** [register_hit(self, coords)] *)
Definition register_hit (self : t) (coords : Z * Z) : t * res outcome :=
  if negb (check_all_ships_added self)
  then (self, Ret (false, None, Some "not_all_ships_added")) else
  if sunk_all self
  then (self, Ret (false, None, Some "all_ships_already_sunk")) else
  match get_ship_at_coords self coords with
  | Raise e => (self, Raise e)
  | Ret ship =>
  let is_hit := bool_decide (ship ≠ None) in
  match add_grid_attempt self is_hit coords with
  | Raise e => (self, Raise e)
  | Ret self1 =>
  let moves_map1 := <[coords := true]> (moves_map self1) in
  let self2 :=
    set_moves self1 moves_map1
      (moves_index self1 ++ [default false (moves_map1 !! coords)]) in
  match ship with
  | None =>
      (self2, Ret (true, Some (mk_hit_data false None false), None))
  | Some (ship_id, ship0) =>
      let ship1 := ShipModel.add_hit ship0 in
      let self3 := set_ships self2 (<[ship_id := ship1]> (ships self2)) in
      match is_sunk_all self3 with
      | Raise e => (self3, Raise e)
      | Ret all =>
          let self4 := if all : bool then set_sunk_all self3 true else self3 in
          (self4,
           Ret (true,
                Some (mk_hit_data true (Some (ShipModel.sunk ship1)) (sunk_all self4)),
                None))
      end
  end end end.

(** [n] calls of [register_hit] at the same coordinates, whatever each
    call answers. *)
Definition register_hits (n : nat) (self : t) (coords : Z * Z) : t :=
  Nat.iter n (fun s => (register_hit s coords).1) self.

(** Both grids have the shape [__init__] gives them. *)
Definition wf (self : t) : bool :=
  Np.has_shape GRID_SIZE GRID_SIZE (grid self)
  && Np.has_shape GRID_SIZE GRID_SIZE (grid_attempts self).

End PlayerModel.

(** ** GameModel *)

Module GameModel.

Record t : Type := mk {
  id : string;
  players : list (string * PlayerModel.t);
  game_status : option bool;
  win_player : option string
}.

(** [__init__(self)]: the two assignments to [game_status] and
    [win_player] bind locals of [__init__], so both attributes keep the
    class-level [None]; the fresh uuid string is an argument here. *)
Definition init (id_ : string) : t :=
  {| id := id_; players := []; game_status := None; win_player := None |}.

(** [d[k] = v] on a dict that keeps insertion order. *)
Fixpoint dict_set (d : list (string * PlayerModel.t)) (k : string)
    (v : PlayerModel.t) : list (string * PlayerModel.t) :=
  match d with
  | [] => [(k, v)]
  | (k', v') :: d' =>
      if String.eqb k' k then (k, v) :: d' else (k', v') :: dict_set d' k v
  end.

(** [d[k]] lookup; [None] stands for the missing key. *)
Fixpoint dict_get (d : list (string * PlayerModel.t)) (k : string)
  : option PlayerModel.t :=
  match d with
  | [] => None
  | (k', v') :: d' => if String.eqb k' k then Some v' else dict_get d' k
  end.

(** [add_player(self)]; [player] is the freshly built [PlayerModel()]. *)
Definition add_player (self : t) (player : PlayerModel.t)
  : t * option PlayerModel.t :=
  if (2 <=? List.length (players self))%nat then (self, None)
  else ({| id := id self;
           players := dict_set (players self) (PlayerModel.id player) player;
           game_status := game_status self;
           win_player := win_player self |},
        Some player).

Record exported : Type := mk_exported {
  e_id : string;
  e_game_status : option bool;
  e_win_player : option string;
  e_players : list PlayerModel.exported
}.

(** [export(self, this_player_id=None)] *)
Definition export (self : t) (this_player_id : option string) : res exported :=
  let* ps := Py.list_map (fun p => PlayerModel.export p this_player_id)
                         (players self).*2 in
  Ret {| e_id := id self; e_game_status := game_status self;
         e_win_player := win_player self; e_players := ps |}.

(** [get_player_by_session_id(self, session_id)] *)
Definition get_player_by_session_id (self : t) (session_id : option string)
  : option PlayerModel.t :=
  let players_ :=
    List.filter
      (fun p => bool_decide (Some (PlayerModel.session_id p) = session_id))
      (players self).*2 in
  if Nat.eqb (List.length players_) 0 then None else List.head players_.

(** [has_player(self, player_id)] *)
Definition has_player (self : t) (player_id : string) : bool :=
  bool_decide (is_Some (dict_get (players self) player_id)).

(** [get_player(self, player_id)] *)
Definition get_player (self : t) (player_id : string) : res PlayerModel.t :=
  match dict_get (players self) player_id with
  | Some p => Ret p
  | None => Raise KeyError
  end.

(** [get_opposing_player(self, this_player)]: the first statement of the
    body is the call [other_players(list(filter(...)))], and
    [other_players] is bound nowhere; what the method answers is a key
    of [self.players]. *)
Definition get_opposing_player (self : t) (this_player : PlayerModel.t)
  : res (option string) :=
  let* _ := Py.load_name (["self"; "this_player"] ++ module_globals ++ Py.builtins)
                         "other_players" in
  let other_players :=
    List.filter
      (fun p : string * PlayerModel.t =>
         negb (String.eqb p.1 (PlayerModel.id this_player)))
      (players self) in
  if Nat.eqb (List.length other_players) 0 then Ret None
  else Ret (fst <$> List.head other_players).

(** [make_move(self, this_player, coords)]: [oppose_player] is what
    [get_opposing_player] answers, a [str]; the lines after the call of
    its [register_hit] read the unbound names [msg] and [player]. *)
Definition make_move (self : t) (this_player : PlayerModel.t) (coords : Z * Z)
  : t * res PlayerModel.outcome :=
  match get_opposing_player self this_player with
  | Raise e => (self, Raise e)
  | Ret None => (self, Ret (false, None, Some "no_opposing_player"))
  | Ret (Some oppose_player) =>
      (self, Py.str_getattr oppose_player "register_hit")
  end.

(** The registry [GAMES], a dict from game id to game, is passed to the
    class methods that read or write it. *)

(** [game_exists(cls, game_id)] *)
Definition game_exists (GAMES : gmap string t) (game_id : string) : bool :=
  bool_decide (is_Some (GAMES !! game_id)).

(** [get_game_by_id(cls, game_id)] *)
Definition get_game_by_id (GAMES : gmap string t) (game_id : string) : option t :=
  if negb (bool_decide (is_Some (GAMES !! game_id))) then None
  else GAMES !! game_id.

(** [create_game_from_id(cls, game_id)]; [fresh_id] is the uuid string
    that [GameModel()] draws. *)
Definition create_game_from_id (GAMES : gmap string t) (game_id : string)
    (fresh_id : string) : gmap string t * t :=
  let game := init fresh_id in
  (<[id game := game]> GAMES, game).

(** The players that join one after the other, whatever each join
    answers. *)
Definition join_all (self : t) (ps : list PlayerModel.t) : t :=
  foldl (fun g p => (add_player g p).1) self ps.

End GameModel.

(** ** Request handlers *)

Module Handlers.

Definition SESSION_KEY : string := "X-Bs-Session-Id".

(** The objects handed to [response] as [body_obj]. *)
Inductive body : Set :=
| BNone
| BJoined (game_id player_id : string).

(** What a handler has set and written when it returns: the status, the
    headers, and the object that is dumped as JSON, with its two fields
    [code] and [data]. *)
Record response : Set := mk_response {
  status : Z;
  headers : list (string * string);
  code : string;
  data : body
}.

(** [set_header(key, val)]: a header of that name is replaced. *)
Fixpoint set_header (hs : list (string * string)) (key val : string)
  : list (string * string) :=
  match hs with
  | [] => [(key, val)]
  | (k, v) :: hs' =>
      if String.eqb k key then (key, val) :: hs'
      else (k, v) :: set_header hs' key val
  end.

(** [BaseHandler.response(self, body_obj, status, code, headers)] *)
Definition respond (body_obj : body) (status_ : Z) (code_ : string)
    (headers_ : option (list (string * string))) : response :=
  let hs := set_header [] "Content-Type" "application/json" in
  let hs :=
    match headers_ with
    | Some l => foldl (fun hs kv => set_header hs kv.1 kv.2) hs l
    | None => hs
    end in
  {| status := status_; headers := hs; code := code_; data := body_obj |}.

(** [PlayersHandler.post(self, game_id)]; [player] is the [PlayerModel()]
    that [add_player] builds.  The game that is found is the object the
    registry holds, so what [add_player] does to it shows in the
    registry. *)
Definition players_post (GAMES : gmap string GameModel.t) (game_id : string)
    (player : PlayerModel.t) : gmap string GameModel.t * res response :=
  if negb (GameModel.game_exists GAMES game_id)
  then (GAMES, Ret (respond BNone 404 "game_not_found" None)) else
  match GameModel.get_game_by_id GAMES game_id with
  | None => (GAMES, Raise AttributeError)
  | Some game =>
      let game1 := (GameModel.add_player game player).1 in
      let GAMES1 := <[game_id := game1]> GAMES in
      match (GameModel.add_player game player).2 with
      | None =>
          (GAMES1, Ret (respond BNone 401 "max_players_already_joined" None))
      | Some player_ =>
          (GAMES1,
           Ret (respond
                  (BJoined (GameModel.id game1) (PlayerModel.id player_))
                  200 "ok"
                  (Some [(SESSION_KEY, PlayerModel.session_id player_)])))
      end
  end.

End Handlers.

(** ** Sequences of calls *)

(** One call of a method of [PlayerModel] that writes to the board. *)
Inductive board_step : PlayerModel.t -> PlayerModel.t -> Prop :=
| step_add_ship (p : PlayerModel.t) (ship_id : string) (coords : Z * Z)
    (orientation : string) :
    board_step p (PlayerModel.add_ship p ship_id coords orientation).1
| step_register_hit (p : PlayerModel.t) (coords : Z * Z) :
    board_step p (PlayerModel.register_hit p coords).1.

(** One call of a method of [GameModel] that writes to the game. *)
Inductive game_step : GameModel.t -> GameModel.t -> Prop :=
| step_add_player (g : GameModel.t) (id_ session_id_ : string) :
    game_step g (GameModel.add_player g (PlayerModel.init id_ session_id_)).1
| step_make_move (g : GameModel.t) (p : PlayerModel.t) (coords : Z * Z) :
    game_step g (GameModel.make_move g p coords).1.


(** ** A reading of decimal text *)

(** The instance of [int] that the examples run [parse_move] with: an
    optional minus sign, then one decimal digit or more; any other text
    is rejected. *)
Definition digit_of (c : Ascii.ascii) : option Z :=
  let n := Z.of_N (Ascii.N_of_ascii c) in
  if (48 <=? n) && (n <=? 57) then Some (n - 48) else None.

Fixpoint digits_of (acc : Z) (s : string) : option Z :=
  match s with
  | EmptyString => Some acc
  | String c s' =>
      match digit_of c with
      | Some d => digits_of (10 * acc + d) s'
      | None => None
      end
  end.

Definition int_decimal (s : string) : option Z :=
  match s with
  | EmptyString => None
  | String c s' =>
      if Ascii.eqb c "-"
      then match s' with
           | EmptyString => None
           | _ => Z.opp <$> digits_of 0 s'
           end
      else digits_of 0 s
  end.

(** ** Sample boards *)

Definition carrier_row : list Z := [1; 1; 1; 1; 1; 0; 0; 0; 0; 0].
Definition battleship_row : list Z := [2; 2; 2; 2; 0; 0; 0; 0; 0; 0].
Definition cruiser_row : list Z := [3; 3; 3; 0; 0; 0; 0; 0; 0; 0].
Definition submarine_row : list Z := [4; 4; 4; 0; 0; 0; 0; 0; 0; 0].
Definition destroyer_row : list Z := [5; 5; 0; 0; 0; 0; 0; 0; 0; 0].

(** A board whose five ships lie along the rows 0 to 4, from column 0. *)
Definition full_grid : Np.ndarray :=
  [carrier_row; battleship_row; cruiser_row; submarine_row; destroyer_row]
  ++ replicate 5 (replicate 10 0).

Definition full_ships : gmap string ShipModel.t :=
  list_to_map
    [ ("carrier", ShipModel.init "carrier" 5 1);
      ("battleship", ShipModel.init "battleship" 4 2);
      ("cruiser", ShipModel.init "cruiser" 3 3);
      ("submarine", ShipModel.init "submarine" 3 4);
      ("destroyer", ShipModel.init "destroyer" 2 5) ].

Definition full_board : PlayerModel.t :=
  PlayerModel.set_grid
    (PlayerModel.set_ships (PlayerModel.init "p1" "s1") full_ships)
    full_grid.

(** A board holding the carrier only. *)
Definition carrier_board : PlayerModel.t :=
  PlayerModel.set_grid
    (PlayerModel.set_ships (PlayerModel.init "p1" "s1")
       {[ "carrier" := ShipModel.init "carrier" 5 1 ]})
    (carrier_row :: replicate 9 (replicate 10 0)).

Definition one_player_game : GameModel.t :=
  (GameModel.add_player (GameModel.init "g1") (PlayerModel.init "p1" "s1")).1.

(** The state of a ship that [add_hit] maintains. *)
Definition ship_inv (s : ShipModel.t) : Prop :=
  0 <= ShipModel.hits s <= ShipModel.length s
  /\ (ShipModel.sunk s = true -> ShipModel.hits s = ShipModel.length s).

(** * Properties *)

(** ** ShipModel.add_hit *)

Section Ship.

Import ShipModel.

Lemma add_hit_unfold (s : t) :
  add_hit s =
  let h := if hits s <? length s then hits s + 1 else hits s in
  {| id := id s; hits := h;
     sunk := if h >=? length s then true else sunk s;
     length := length s; intcode := intcode s |}.
Proof.
  destruct s as [i h k l c]; unfold add_hit; cbn.
  destruct (h <? l); cbn; destruct (_ >=? l); reflexivity.
Qed.

Lemma init_inv (id_ : string) (len code : Z) :
  0 <= len -> ship_inv (init id_ len code).
Proof. intros Hlen; split; cbn; [lia | discriminate]. Qed.

Lemma SHIPS_lengths :
  map_Forall (fun _ d => 2 <= def_length d <= 5) SHIPS.
Proof.
  unfold SHIPS; cbn [list_to_map foldr uncurry fst snd].
  repeat (apply map_Forall_insert_2; [cbn; lia |]).
  apply map_Forall_empty.
Qed.

(** Every ship of the catalog starts in the maintained state. *)
Lemma make_ship_by_id_inv (ship_id : string) (s : t) :
  make_ship_by_id ship_id = Ret s -> ship_inv s /\ hits s = 0 /\ sunk s = false.
Proof.
  unfold make_ship_by_id.
  destruct (SHIPS !! ship_id) as [d |] eqn:E; [| discriminate].
  intros [= <-]; pose proof (SHIPS_lengths _ _ E) as Hd; cbn in Hd.
  split; [apply init_inv; lia | split; reflexivity].
Qed.

Lemma add_hit_length (s : t) : length (add_hit s) = length s.
Proof. rewrite add_hit_unfold; reflexivity. Qed.

Lemma add_hit_inv (s : t) : ship_inv s -> ship_inv (add_hit s).
Proof.
  intros [Hb Hs]; rewrite add_hit_unfold; split; cbn.
  - destruct (Z.ltb_spec (hits s) (length s)); lia.
  - destruct (Z.ltb_spec (hits s) (length s)) as [Hlt | Hge].
    + rewrite Z.geb_leb.
      destruct (Z.leb_spec (length s) (hits s + 1)); [lia |].
      intros Hsunk; specialize (Hs Hsunk); lia.
    + intros _; lia.
Qed.

Lemma add_hits_inv (n : nat) (s : t) : ship_inv s -> ship_inv (add_hits n s).
Proof.
  intros Hs; induction n as [| n IH]; [exact Hs |].
  cbn; apply add_hit_inv, IH.
Qed.

Lemma add_hits_length (n : nat) (s : t) : length (add_hits n s) = length s.
Proof.
  induction n as [| n IH]; [reflexivity |].
  cbn; rewrite add_hit_length; exact IH.
Qed.

Lemma add_hits_hits (n : nat) (s : t) :
  hits s <= length s ->
  hits (add_hits n s) = Z.min (length s) (hits s + Z.of_nat n).
Proof.
  intros Hle; induction n as [| n IH]; [cbn; lia |].
  change (add_hits (S n) s) with (add_hit (add_hits n s)).
  rewrite add_hit_unfold; cbn -[Z.of_nat].
  rewrite add_hits_length, IH.
  destruct (Z.ltb_spec (Z.min (length s) (hits s + Z.of_nat n)) (length s)); lia.
Qed.

Lemma add_hit_sunk_iff (s : t) :
  ship_inv s ->
  sunk (add_hit s) = (hits (add_hit s) =? length (add_hit s)).
Proof.
  intros Hs. pose proof (add_hit_inv s Hs) as [Hb' Hs'].
  revert Hb' Hs'; rewrite add_hit_unfold; cbn; intros Hb' Hs'.
  rewrite Z.geb_leb in *.
  destruct (Z.leb_spec (length s)
              (if hits s <? length s then hits s + 1 else hits s)) as [H1 | H1].
  - symmetry; apply Z.eqb_eq; lia.
  - destruct (sunk s) eqn:E.
    + specialize (Hs' eq_refl); lia.
    + symmetry; apply Z.eqb_neq; lia.
Qed.

Lemma add_hit_sunk_noop (s : t) :
  ship_inv s -> sunk s = true -> add_hit s = s.
Proof.
  intros [Hb Hs] Hsunk; specialize (Hs Hsunk).
  rewrite add_hit_unfold; destruct s as [i h k l c]; cbn in *; subst.
  rewrite Z.ltb_irrefl, Z.geb_leb, Z.leb_refl; reflexivity.
Qed.

(** C3. A ship built by [__init__] with a length that is not negative,
    after any number [n] of [add_hit] calls and then one more: the hit
    count is the number of calls capped at the length, so it never
    exceeds the length; the last call did not decrease it; the sunk flag
    is exactly [hits == length]; and if the ship was already sunk the
    last call changed nothing. *)
Theorem add_hit_invariant (id_ : string) (len code : Z) (n : nat) :
  0 <= len ->
  let s := add_hits n (init id_ len code) in
  let s' := add_hit s in
  hits s' = Z.min len (Z.of_nat (S n))
  /\ hits s' <= length s'
  /\ hits s <= hits s'
  /\ sunk s' = (hits s' =? length s')
  /\ (sunk s = true -> s' = s).
Proof.
  intros Hlen s s'.
  assert (Hinv : ship_inv s) by (apply add_hits_inv, init_inv, Hlen).
  pose proof (add_hit_inv s Hinv) as [Hb' _].
  repeat split.
  - subst s' s.
    change (add_hit (add_hits n ?x)) with (add_hits (S n) x).
    rewrite add_hits_hits; cbn -[Z.of_nat]; lia.
  - apply Hb'.
  - subst s'; rewrite add_hit_unfold; cbn.
    destruct (hits s <? length s); lia.
  - apply add_hit_sunk_iff, Hinv.
  - apply add_hit_sunk_noop, Hinv.
Qed.

Lemma add_hit_invariant_witness :
  let s := add_hits 6 (init "cruiser" 3 3) in
  let s' := add_hit s in
  hits s' = Z.min 3 (Z.of_nat 7)
  /\ hits s' <= length s'
  /\ hits s <= hits s'
  /\ sunk s' = (hits s' =? length s')
  /\ (sunk s = true -> s' = s).
Proof. apply (add_hit_invariant "cruiser" 3 3 6); lia. Defined.

End Ship.

(** ** Array indexing *)

Section Arrays.

Import Np.


Lemma has_shape_spec (rows cols : nat) (a : ndarray) :
  has_shape rows cols a = true <->
  List.length a = rows /\ Forall (fun row => List.length row = cols) a.
Proof.
  unfold has_shape; rewrite andb_true_iff, Nat.eqb_eq.
  apply and_iff_compat_l.
  induction a as [| row a IH]; cbn.
  - split; [constructor | reflexivity].
  - rewrite andb_true_iff, Nat.eqb_eq, IH, Forall_cons; reflexivity.
Qed.

Lemma has_shape_row (rows cols : nat) (a : ndarray) (r : nat) (row : list Z) :
  has_shape rows cols a = true -> a !! r = Some row -> List.length row = cols.
Proof.
  intros Hs Hr; apply has_shape_spec in Hs as [_ Hall].
  rewrite Forall_lookup in Hall; exact (Hall r row Hr).
Qed.

Lemma setitem2_shape (rows cols : nat) (a a' : ndarray) (y x v : Z) :
  has_shape rows cols a = true ->
  setitem2 a y x v = Ret a' ->
  has_shape rows cols a' = true.
Proof.
  intros Hs; unfold setitem2.
  destruct (norm_index (nrows a) y) as [r |] eqn:Er; cbn; [| discriminate].
  destruct (a !! r) as [row |] eqn:Erow; [| discriminate].
  destruct (norm_index (List.length row) x) as [c |] eqn:Ec; cbn; [| discriminate].
  intros [= <-].
  pose proof (has_shape_row _ _ _ _ _ Hs Erow) as Hlen.
  apply has_shape_spec in Hs as [Hrows Hall].
  apply has_shape_spec; split.
  - rewrite length_insert; exact Hrows.
  - apply Forall_insert; [exact Hall |].
    cbn beta; rewrite length_insert; exact Hlen.
Qed.


End Arrays.

(** ** PlayerModel.register_hit *)

Section Board.

Import PlayerModel.

Lemma size_SHIPS : size SHIPS = 5%nat.
Proof. vm_compute; reflexivity. Qed.

Lemma check_all_ships_added_size (p : t) :
  check_all_ships_added p = true <-> size (ships p) = 5%nat.
Proof.
  unfold check_all_ships_added; rewrite size_SHIPS; apply Nat.eqb_eq.
Qed.

(** With at least one ship in [self.ships], [is_sunk_all] reads [sunk]
    off a key. *)
Lemma is_sunk_all_raises (p : t) :
  ships p <> ∅ -> is_sunk_all p = Raise AttributeError.
Proof.
  intros Hne; unfold is_sunk_all, Py.filter, Py.list_of; cbn.
  destruct (iter_dict (ships p)) as [| k l] eqn:E; [| reflexivity].
  unfold iter_dict in E; apply fmap_nil_inv in E.
  apply map_to_list_empty_iff in E; contradiction.
Qed.

Lemma is_sunk_all_no_ships (p : t) :
  ships p = ∅ -> is_sunk_all p = Ret true.
Proof.
  intros He; unfold is_sunk_all, iter_dict; rewrite He, map_to_list_empty.
  reflexivity.
Qed.


(** The marker table is not bound, so no marker resolves to a kind. *)
Lemma get_ship_id_by_intcode_raises (intcode_ : Z) :
  ShipModel.get_ship_id_by_intcode intcode_ = Raise NameError.
Proof. reflexivity. Qed.

Lemma get_ship_at_coords_marker (p : t) (x y w : Z) :
  Np.getitem2 (grid p) y x = Ret w -> w <> 0 ->
  get_ship_at_coords p (x, y) = Raise NameError.
Proof.
  intros Hget Hw; unfold get_ship_at_coords; rewrite Hget; cbn [Py.bind].
  rewrite (proj2 (Z.eqb_neq w 0) Hw), get_ship_id_by_intcode_raises.
  reflexivity.
Qed.

(** What [get_ship_at_coords] returns, when it returns, is [None]. *)
Lemma get_ship_at_coords_returns (p : t) (c : Z * Z)
    (found : option (string * ShipModel.t)) :
  get_ship_at_coords p c = Ret found -> found = None.
Proof.
  destruct c as [x y]; unfold get_ship_at_coords.
  destruct (Np.getitem2 (grid p) y x) as [w |]; cbn [Py.bind]; [| discriminate].
  destruct (w =? 0); [intros [= <-]; reflexivity |].
  rewrite get_ship_id_by_intcode_raises; discriminate.
Qed.

(** An attack on a cell that holds a marker raises where the marker is
    looked up; nothing has been written by then. *)
Lemma register_hit_marker_raises (p : t) (x y w : Z) :
  size (ships p) = 5%nat ->
  sunk_all p = false ->
  Np.getitem2 (grid p) y x = Ret w -> w <> 0 ->
  register_hit p (x, y) = (p, Raise NameError).
Proof.
  intros Hall Hsunk Hget Hw.
  apply check_all_ships_added_size in Hall.
  unfold register_hit; rewrite Hall, Hsunk; cbn [negb].
  rewrite (get_ship_at_coords_marker p x y w Hget Hw); reflexivity.
Qed.

(** No attack changes a ship. *)
Lemma register_hit_keeps_ships (p : t) (coords : Z * Z) :
  ships (register_hit p coords).1 = ships p.
Proof.
  unfold register_hit.
  destruct (check_all_ships_added p); cbn [negb]; [| reflexivity].
  destruct (sunk_all p); [reflexivity |].
  destruct (get_ship_at_coords p coords) as [found |] eqn:Hget; [| reflexivity].
  rewrite (get_ship_at_coords_returns _ _ _ Hget).
  unfold add_grid_attempt; destruct coords as [x y].
  destruct (Np.setitem2 (grid_attempts p) y x _) as [g |]; reflexivity.
Qed.

Lemma register_hits_keeps_ships (n : nat) (p : t) (coords : Z * Z) :
  ships (register_hits n p coords) = ships p.
Proof.
  induction n as [| n IH]; [reflexivity |].
  change (register_hits (S n) p coords)
    with ((register_hit (register_hits n p coords) coords).1).
  rewrite register_hit_keeps_ships; exact IH.
Qed.

Lemma get_ship_at_coords_Some (p : t) (c : Z * Z) (ship_id : string)
    (s : ShipModel.t) :
  get_ship_at_coords p c = Ret (Some (ship_id, s)) ->
  ships p !! ship_id = Some s.
Proof.
  destruct c as [x y]; unfold get_ship_at_coords.
  destruct (Np.getitem2 (grid p) y x) as [w |]; cbn [Py.bind]; [| discriminate].
  destruct (w =? 0); [discriminate |].
  destruct (ShipModel.get_ship_id_by_intcode w) as [k |]; cbn [Py.bind];
    [| discriminate].
  destruct (ships p !! k) as [s' |] eqn:E; [| discriminate].
  intros [= <- <-]; exact E.
Qed.

(** C7. [register_hit] on a board that does not hold five ships answers
    (False, None, "not_all_ships_added"), and on a board that holds all
    five and whose [sunk_all] flag is already set it answers
    (False, None, "all_ships_already_sunk"); in both cases the board it
    leaves is the board it was given: attack grid, moves and ships are
    untouched. *)
Theorem register_hit_rejections (p : t) (coords : Z * Z) :
  (size (ships p) <> 5%nat ->
   register_hit p coords = (p, Ret (false, None, Some "not_all_ships_added")))
  /\ (size (ships p) = 5%nat -> sunk_all p = true ->
      register_hit p coords
      = (p, Ret (false, None, Some "all_ships_already_sunk"))).
Proof.
  split.
  - intros Hne; unfold register_hit.
    destruct (check_all_ships_added p) eqn:E; [| reflexivity].
    apply check_all_ships_added_size in E; contradiction.
  - intros Hall Hsunk; unfold register_hit.
    apply check_all_ships_added_size in Hall; rewrite Hall, Hsunk; reflexivity.
Qed.

Lemma register_hit_rejections_witness :
  register_hit carrier_board (3, 4)
  = (carrier_board, Ret (false, None, Some "not_all_ships_added"))
  /\ register_hit (set_sunk_all full_board true) (3, 4)
     = (set_sunk_all full_board true,
        Ret (false, None, Some "all_ships_already_sunk")).
Proof.
  split.
  - apply (proj1 (register_hit_rejections carrier_board (3, 4))).
    vm_compute; discriminate.
  - apply (proj2 (register_hit_rejections (set_sunk_all full_board true) (3, 4)));
      vm_compute; reflexivity.
Defined.

(** C10, evaluated. Five attacks at (0,0) on [full_board], a cell of the
    carrier: the marker table was never built (its assignment raises
    TypeError), so each call raises NameError where the marker is looked
    up, before [add_hit] is reached and before anything is recorded; the
    board is as it was, the carrier's hit count is still 0 and the
    carrier is not sunk.  No number of attacks changes any ship of any
    board. *)
Theorem repeated_hit_evaluated :
  let q := register_hits 5 full_board (0, 0) in
  SHIPS_INTCODES = Raise TypeError
  /\ register_hit full_board (0, 0) = (full_board, Raise NameError)
  /\ q = full_board
  /\ ships q !! "carrier" = Some (ShipModel.init "carrier" 5 1)
  /\ (forall n p coords, ships (register_hits n p coords) = ships p).
Proof.
  split; [reflexivity |].
  split; [vm_compute; reflexivity |].
  split; [vm_compute; reflexivity |].
  split; [vm_compute; reflexivity |].
  intros n p coords; apply register_hits_keeps_ships.
Qed.

End Board.

(** ** PlayerModel.add_ship *)

Section Placement.

Import PlayerModel.

Lemma is_space_available_raises (p : t) (ship_arr : option Np.view) :
  is_space_available p ship_arr = Raise TypeError.
Proof. destruct ship_arr; reflexivity. Qed.

(** [add_ship] writes nothing, whatever it answers. *)
Lemma add_ship_keeps_state (p : t) (ship_id : string) (coords : Z * Z)
    (orientation : string) :
  (add_ship p ship_id coords orientation).1 = p.
Proof.
  unfold add_ship.
  destruct (has_ship p ship_id); [reflexivity |].
  destruct (ShipModel.make_ship_by_id ship_id) as [ship |]; [| reflexivity].
  destruct (get_ship_arr p _ coords orientation) as [arr |]; [| reflexivity].
  rewrite is_space_available_raises; reflexivity.
Qed.

(** A kind that is already placed is rejected. *)
Lemma add_ship_duplicate (p : t) (ship_id : string) (coords : Z * Z)
    (orientation : string) :
  has_ship p ship_id = true ->
  add_ship p ship_id coords orientation = (p, Ret false).
Proof. intros H; unfold add_ship; rewrite H; reflexivity. Qed.

(** A kind that is not placed yet never gets an answer. *)
Lemma add_ship_new_kind_raises (p : t) (ship_id : string) (coords : Z * Z)
    (orientation : string) :
  has_ship p ship_id = false ->
  exists e, add_ship p ship_id coords orientation = (p, Raise e).
Proof.
  intros H; unfold add_ship; rewrite H.
  destruct (ShipModel.make_ship_by_id ship_id) as [ship |]; [| eauto].
  destruct (get_ship_arr p _ coords orientation) as [arr |]; [| eauto].
  rewrite is_space_available_raises; eauto.
Qed.

Lemma add_ship_never_succeeds (p : t) (ship_id : string) (coords : Z * Z)
    (orientation : string) :
  (add_ship p ship_id coords orientation).2 <> Ret true.
Proof.
  destruct (has_ship p ship_id) eqn:E.
  - rewrite add_ship_duplicate by exact E; discriminate.
  - destruct (add_ship_new_kind_raises p ship_id coords orientation E) as [e ->].
    discriminate.
Qed.

(** A slice that runs past the edge of the grid is cut at the edge: the
    carrier asked for at column 8 of row 0 gets two cells. *)
Example get_ship_arr_truncates :
  get_ship_arr (init "p1" "s1") 5 (8, 0) "x" = Ret (Some [(0, 8); (0, 9)]%nat).
Proof. vm_compute; reflexivity. Qed.

(** C1, evaluated. On a board that holds the carrier in row 0: the
    carrier asked for again is rejected with [False]; the destroyer asked
    for on the two occupied cells (0,0) and (1,0) raises TypeError instead
    of being rejected, and so does the destroyer asked for at column 9,
    whose footprint leaves the grid; the destroyer asked for in row 10
    raises IndexError.  The board is as it was in all four cases. *)
Theorem add_ship_rejections_evaluated :
  add_ship carrier_board "carrier" (0, 5) "x" = (carrier_board, Ret false)
  /\ add_ship carrier_board "destroyer" (0, 0) "x" = (carrier_board, Raise TypeError)
  /\ add_ship carrier_board "destroyer" (9, 5) "x" = (carrier_board, Raise TypeError)
  /\ add_ship carrier_board "destroyer" (0, 10) "x" = (carrier_board, Raise IndexError).
Proof. repeat split; vm_compute; reflexivity. Qed.

(** C6, evaluated. The destroyer asked for at (0,0), horizontally, on a
    fresh board -- two empty cells inside the grid -- raises TypeError and
    the board stays empty; and no call of [add_ship] at all answers
    [True]. *)
Theorem add_ship_valid_placement_evaluated :
  add_ship (init "p1" "s1") "destroyer" (0, 0) "x"
  = (init "p1" "s1", Raise TypeError)
  /\ (forall p ship_id coords orientation,
        (add_ship p ship_id coords orientation).2 <> Ret true).
Proof.
  split; [vm_compute; reflexivity |].
  intros p ship_id coords orientation; apply add_ship_never_succeeds.
Qed.

End Placement.

(** ** PlayerModel.export and the moves log *)

Section BoardExport.

Import PlayerModel.

(** What a viewer other than the owner gets. *)
Lemma export_non_owner (p : t) (viewer : option string) :
  viewer <> Some (id p) ->
  export p viewer
  = Ret {| e_id := id p; e_moves_index := moves_index p;
           e_sunk_all := sunk_all p;
           e_grid_attempts := grid p;
           e_grid := None; e_ships := None |}.
Proof.
  intros H; unfold export.
  rewrite bool_decide_eq_false_2 by exact H; reflexivity.
Qed.

(** The attack grid is not part of the export. *)
Lemma export_ignores_grid_attempts (p : t) (g : Np.ndarray)
    (viewer : option string) :
  export (set_grid_attempts p g) viewer = export p viewer.
Proof. reflexivity. Qed.

(** The owner of a board with a ship on it gets no export. *)
Lemma export_owner_raises (p : t) :
  ships p <> ∅ -> export p (Some (id p)) = Raise AttributeError.
Proof.
  intros Hne; unfold export.
  rewrite bool_decide_eq_true_2 by reflexivity.
  destruct (iter_dict (ships p)) as [| k l] eqn:E; [| reflexivity].
  unfold iter_dict in E; apply fmap_nil_inv in E.
  apply map_to_list_empty_iff in E; contradiction.
Qed.

(** An accepted attack appends [True] to the log. *)
Lemma register_hit_log (p p' : t) (c : Z * Z) (d : option hit_data)
    (m : option string) :
  register_hit p c = (p', Ret (true, d, m)) ->
  moves_index p' = moves_index p ++ [true].
Proof.
  unfold register_hit.
  destruct (check_all_ships_added p); cbn [negb]; [| discriminate].
  destruct (sunk_all p); [discriminate |].
  destruct (get_ship_at_coords p c) as [ship |]; [| discriminate].
  unfold add_grid_attempt; destruct c as [x y].
  destruct (Np.setitem2 (grid_attempts p) y x _) as [g |]; cbn [Py.bind];
    [| discriminate].
  rewrite lookup_insert_eq; cbn [default].
  destruct ship as [[ship_id s] |].
  - destruct (is_sunk_all _) as [[] |]; [| | discriminate];
      intros [= <- _]; reflexivity.
  - intros [= <- _]; reflexivity.
Qed.

(** C4, evaluated. The board [full_board] of player p1, never attacked,
    exported for the viewer p2: the field [grid_attempts] carries the ship
    placement grid, while the board's attack grid is all zero; and the
    export for the owner p1 raises AttributeError. *)
Theorem export_non_owner_evaluated :
  export full_board (Some "p2")
  = Ret {| e_id := "p1"; e_moves_index := []; e_sunk_all := false;
           e_grid_attempts := full_grid;
           e_grid := None; e_ships := None |}
  /\ grid_attempts full_board = Np.zeros 10 10
  /\ full_grid <> Np.zeros 10 10
  /\ export full_board (Some "p1") = Raise AttributeError.
Proof.
  split; [reflexivity |].
  split; [reflexivity |].
  split; [discriminate |].
  vm_compute; reflexivity.
Qed.

(** C9, evaluated. Two attacks on [full_board], at the empty cells (7,8)
    and (2,9), are both accepted as misses, and both leave the same log,
    the one entry [True]; the export of the attacked board raises for its
    owner and carries that log for anybody else. *)
Theorem register_hit_log_evaluated :
  let r1 := register_hit full_board (7, 8) in
  let r2 := register_hit full_board (2, 9) in
  r1.2 = Ret (true, Some (mk_hit_data false None false), None)
  /\ r2.2 = Ret (true, Some (mk_hit_data false None false), None)
  /\ moves_index r1.1 = [true]
  /\ moves_index r2.1 = [true]
  /\ export r1.1 (Some "p1") = Raise AttributeError
  /\ Py.bind (export r1.1 (Some "p2")) (fun e => Ret (e_moves_index e))
     = Ret [true].
Proof. repeat split; vm_compute; reflexivity. Qed.

(** C2, evaluated. The attack at (0,0) on [full_board], a cell of the
    carrier, raises NameError where the marker is looked up and leaves the
    board as it was: no hit is counted and nothing is answered; and
    [is_sunk_all], which the call would run next, raises AttributeError on
    that board.  The attack at the empty cell (7,8) is answered as a miss
    and leaves the ships as they were. *)
Theorem register_hit_on_ship_evaluated :
  let r := register_hit full_board (0, 0) in
  let r' := register_hit full_board (7, 8) in
  r.2 = Raise NameError
  /\ r.1 = full_board
  /\ is_sunk_all full_board = Raise AttributeError
  /\ r'.2 = Ret (true, Some (mk_hit_data false None false), None)
  /\ ships r'.1 = ships full_board.
Proof. repeat split; vm_compute; reflexivity. Qed.

End BoardExport.

(** ** GameModel *)

Section Game.

Import GameModel.

Lemma get_opposing_player_raises (g : t) (p : PlayerModel.t) :
  get_opposing_player g p = Raise NameError.
Proof. reflexivity. Qed.

Lemma make_move_raises (g : t) (p : PlayerModel.t) (coords : Z * Z) :
  make_move g p coords = (g, Raise NameError).
Proof. reflexivity. Qed.

Lemma get_player_unknown (g : t) (player_id : string) :
  has_player g player_id = false -> get_player g player_id = Raise KeyError.
Proof.
  unfold has_player, get_player; intros H.
  destruct (dict_get (players g) player_id) as [p |]; [| reflexivity].
  apply bool_decide_eq_false in H; exfalso; apply H; eauto.
Qed.

Lemma get_player_by_session_id_absent (g : t) (session_id : option string) :
  (forall p, In p (players g).*2 -> Some (PlayerModel.session_id p) <> session_id) ->
  get_player_by_session_id g session_id = None.
Proof.
  intros H; unfold get_player_by_session_id.
  destruct (List.filter _ _) as [| p l] eqn:E; [reflexivity |].
  assert (Hin : In p (List.filter
             (fun p => bool_decide (Some (PlayerModel.session_id p) = session_id))
             (players g).*2)) by (rewrite E; left; reflexivity).
  apply filter_In in Hin as [Hin Hb].
  apply bool_decide_eq_true in Hb; exfalso; exact (H p Hin Hb).
Qed.

(** C5, evaluated. In a game that only p1 has joined, the move of p1
    raises NameError; so does the move of p1 in a game that p2 has joined
    as well; the game is as it was. *)
Theorem make_move_evaluated :
  let p1 := PlayerModel.init "p1" "s1" in
  let g2 := (add_player one_player_game (PlayerModel.init "p2" "s2")).1 in
  make_move one_player_game p1 (0, 0) = (one_player_game, Raise NameError)
  /\ List.length (players g2) = 2%nat
  /\ make_move g2 p1 (0, 0) = (g2, Raise NameError).
Proof. repeat split. Qed.

(** C8, evaluated. In a game that only p1 has joined, [get_player] for
    the identifier p9 raises KeyError, while [get_player_by_session_id]
    for a token nobody holds answers [None]. *)
Theorem get_player_unknown_evaluated :
  has_player one_player_game "p9" = false
  /\ get_player one_player_game "p9" = Raise KeyError
  /\ get_player_by_session_id one_player_game (Some "s9") = None.
Proof. repeat split; vm_compute; reflexivity. Qed.

End Game.

(** * Further properties of the model classes *)

(** ** Ships of the catalog *)

Section CatalogShips.

Import ShipModel.

Lemma add_hits_sunk (n : nat) (s : t) :
  ship_inv s -> sunk s = false -> hits s < length s ->
  sunk (add_hits n s) = (length s <=? hits s + Z.of_nat n).
Proof.
  intros Hinv Hs Hlt; destruct n as [| n].
  - cbn -[Z.of_nat]; rewrite Hs; symmetry; apply Z.leb_gt; lia.
  - change (add_hits (S n) s) with (add_hit (add_hits n s)).
    rewrite add_hit_sunk_iff by (apply add_hits_inv, Hinv).
    change (add_hit (add_hits n s)) with (add_hits (S n) s).
    destruct Hinv as [Hb _].
    rewrite add_hits_length, add_hits_hits by lia.
    destruct (Z.leb_spec (length s) (hits s + Z.of_nat (S n)));
      [apply Z.eqb_eq | apply Z.eqb_neq]; lia.
Qed.

(** A ship of the catalog takes as many hits as it is long, no more, and
    is sunk from the hit on that makes its count reach its length. *)
Theorem catalog_ship_sinks_at_length (ship_id : string) (s : t) (n : nat) :
  make_ship_by_id ship_id = Ret s ->
  2 <= length s <= 5
  /\ hits (add_hits n s) = Z.min (length s) (Z.of_nat n)
  /\ sunk (add_hits n s) = (length s <=? Z.of_nat n).
Proof.
  intros Hmk.
  destruct (make_ship_by_id_inv _ _ Hmk) as (Hinv & Hh & Hs).
  assert (Hlen : 2 <= length s <= 5).
  { unfold make_ship_by_id in Hmk.
    destruct (SHIPS !! ship_id) as [d |] eqn:E; [| discriminate].
    injection Hmk as <-; exact (SHIPS_lengths _ _ E). }
  split; [exact Hlen |]; split.
  - rewrite add_hits_hits by lia; rewrite Hh; reflexivity.
  - rewrite add_hits_sunk by (try assumption; lia); rewrite Hh; reflexivity.
Qed.

Lemma catalog_ship_sinks_at_length_witness :
  let s := init "destroyer" 2 5 in
  2 <= length s <= 5
  /\ hits (add_hits 3 s) = Z.min (length s) (Z.of_nat 3)
  /\ sunk (add_hits 3 s) = (length s <=? Z.of_nat 3).
Proof.
  apply (catalog_ship_sinks_at_length "destroyer" (init "destroyer" 2 5) 3).
  vm_compute; reflexivity.
Defined.

End CatalogShips.

(** ** The footprint of a placement *)

Section Footprint.

Import PlayerModel.

Lemma has_shape_dims (rows cols : nat) (a : Np.ndarray) :
  (0 < rows)%nat -> Np.has_shape rows cols a = true ->
  Np.nrows a = rows /\ Np.ncols a = cols.
Proof.
  intros Hpos Hs; pose proof (proj1 (has_shape_spec _ _ _) Hs) as [Hr _].
  split; [exact Hr |].
  unfold Np.ncols; destruct a as [| row a]; [cbn in Hr; lia |].
  exact (has_shape_row _ _ _ 0%nat row Hs eq_refl).
Qed.

Lemma norm_index_nonneg (n : nat) (i : Z) :
  0 <= i < Z.of_nat n -> Np.norm_index n i = Ret (Z.to_nat i).
Proof.
  intros [H1 H2]; unfold Np.norm_index.
  rewrite (proj2 (Z.leb_le 0 i) H1), (proj2 (Z.ltb_lt i _) H2); reflexivity.
Qed.

Lemma norm_index_in_range (n : nat) (i : Z) :
  - Z.of_nat n <= i < Z.of_nat n -> exists r, Np.norm_index n i = Ret r.
Proof.
  intros [H1 H2]; unfold Np.norm_index.
  destruct ((0 <=? i) && (i <? Z.of_nat n)) eqn:E1; [eauto |].
  assert (Hneg : i < 0).
  { destruct (Z.leb_spec 0 i) as [H0 |]; [| assumption].
    rewrite (proj2 (Z.ltb_lt i _) H2) in E1; discriminate. }
  rewrite (proj2 (Z.leb_le _ i) H1), (proj2 (Z.ltb_lt i 0) Hneg); eauto.
Qed.

Lemma norm_index_out_of_range (n : nat) (i : Z) :
  ~ (- Z.of_nat n <= i < Z.of_nat n) -> Np.norm_index n i = Raise IndexError.
Proof.
  intros H; unfold Np.norm_index.
  destruct ((0 <=? i) && (i <? Z.of_nat n)) eqn:E1.
  { apply andb_true_iff in E1 as [H1 H2].
    apply Z.leb_le in H1; apply Z.ltb_lt in H2; lia. }
  destruct ((- Z.of_nat n <=? i) && (i <? 0)) eqn:E2; [| reflexivity].
  apply andb_true_iff in E2 as [H1 H2].
  apply Z.leb_le in H1; apply Z.ltb_lt in H2; lia.
Qed.

Lemma slice_nonneg (n : nat) (start len : Z) :
  0 <= start -> 0 <= len ->
  Np.slice n start (start + len)
  = seq (Z.to_nat (Z.min start (Z.of_nat n)))
        (Z.to_nat (Z.min (start + len) (Z.of_nat n) - Z.min start (Z.of_nat n))).
Proof.
  intros Hs Hl; unfold Np.slice, Np.clamp.
  rewrite (proj2 (Z.ltb_ge start 0)) by lia.
  rewrite (proj2 (Z.ltb_ge (start + len) 0)) by lia.
  rewrite Z2Nat.inj_sub by lia; reflexivity.
Qed.

Lemma wf_dims (p : t) :
  wf p = true ->
  Np.nrows (grid p) = 10%nat /\ Np.ncols (grid p) = 10%nat.
Proof.
  intros Hwf; apply andb_true_iff in Hwf as [Hg _].
  apply has_shape_dims; [unfold GRID_SIZE; lia | exact Hg].
Qed.

Lemma get_ship_arr_row (p : t) (ship_len x y : Z) :
  wf p = true -> 0 <= ship_len -> 0 <= x -> 0 <= y < 10 ->
  get_ship_arr p ship_len (x, y) "x"
  = Ret (Some (map (fun c => (Z.to_nat y, c))
                 (seq (Z.to_nat (Z.min x 10))
                      (Z.to_nat (Z.min (x + ship_len) 10 - Z.min x 10))))).
Proof.
  intros Hwf Hl Hx Hy; destruct (wf_dims p Hwf) as [Hr Hc].
  unfold get_ship_arr; cbn [String.eqb Ascii.eqb Bool.eqb andb].
  change (String.eqb "x" "x") with true; cbn iota.
  unfold Np.row_slice; rewrite Hr, Hc.
  rewrite norm_index_nonneg by (cbn; lia); cbn [Py.bind].
  rewrite slice_nonneg by assumption; reflexivity.
Qed.

Lemma get_ship_arr_col (p : t) (ship_len x y : Z) :
  wf p = true -> 0 <= ship_len -> 0 <= x < 10 -> 0 <= y ->
  get_ship_arr p ship_len (x, y) "y"
  = Ret (Some (map (fun r => (r, Z.to_nat x))
                 (seq (Z.to_nat (Z.min y 10))
                      (Z.to_nat (Z.min (y + ship_len) 10 - Z.min y 10))))).
Proof.
  intros Hwf Hl Hx Hy; destruct (wf_dims p Hwf) as [Hr Hc].
  unfold get_ship_arr.
  change (String.eqb "y" "x") with false;
    change (String.eqb "y" "y") with true; cbn iota.
  unfold Np.col_slice; rewrite Hr, Hc.
  rewrite norm_index_nonneg by (cbn; lia); cbn [Py.bind].
  rewrite slice_nonneg by assumption; reflexivity.
Qed.

(** On a 10 x 10 board, for coordinates that are not negative and whose
    fixed coordinate lies on the grid, [get_ship_arr] answers the cells
    from the origin along the axis as far as the edge of the grid. *)
Theorem get_ship_arr_footprint (p : t) (ship_len x y : Z) :
  wf p = true -> 0 <= ship_len -> 0 <= x -> 0 <= y ->
  (y < 10 ->
   get_ship_arr p ship_len (x, y) "x"
   = Ret (Some (map (fun c => (Z.to_nat y, c))
                  (seq (Z.to_nat (Z.min x 10))
                       (Z.to_nat (Z.min (x + ship_len) 10 - Z.min x 10))))))
  /\ (x < 10 ->
      get_ship_arr p ship_len (x, y) "y"
      = Ret (Some (map (fun r => (r, Z.to_nat x))
                     (seq (Z.to_nat (Z.min y 10))
                          (Z.to_nat (Z.min (y + ship_len) 10 - Z.min y 10)))))).
Proof.
  intros Hwf Hl Hx Hy; split; intros Hlt.
  - apply get_ship_arr_row; (assumption || lia).
  - apply get_ship_arr_col; (assumption || lia).
Qed.

Lemma get_ship_arr_footprint_witness :
  (0 < 10 ->
   get_ship_arr (init "p1" "s1") 5 (8, 0) "x"
   = Ret (Some (map (fun c => (Z.to_nat 0, c))
                  (seq (Z.to_nat (Z.min 8 10))
                       (Z.to_nat (Z.min (8 + 5) 10 - Z.min 8 10))))))
  /\ (8 < 10 ->
      get_ship_arr (init "p1" "s1") 5 (8, 0) "y"
      = Ret (Some (map (fun r => (r, Z.to_nat 8))
                     (seq (Z.to_nat (Z.min 0 10))
                          (Z.to_nat (Z.min (0 + 5) 10 - Z.min 0 10)))))).
Proof.
  apply (get_ship_arr_footprint (init "p1" "s1") 5 8 0);
    [vm_compute; reflexivity | lia | lia | lia].
Defined.

(** The footprint has as many cells as the ship is long exactly when the
    ship ends on the grid; otherwise it has fewer, and the call still
    answers. *)
Theorem get_ship_arr_truncated (p : t) (ship_len x y : Z) (v : Np.view) :
  wf p = true -> 0 < ship_len -> 0 <= x -> 0 <= y < 10 ->
  get_ship_arr p ship_len (x, y) "x" = Ret (Some v) ->
  (List.length v <= Z.to_nat ship_len)%nat
  /\ (List.length v = Z.to_nat ship_len <-> x + ship_len <= 10).
Proof.
  intros Hwf Hl Hx Hy Hget.
  rewrite get_ship_arr_row in Hget by (assumption || lia).
  injection Hget as <-.
  rewrite length_map, length_seq; split; [lia |].
  split; intros H; lia.
Qed.

Lemma get_ship_arr_truncated_witness :
  (List.length [(0, 8); (0, 9)]%nat <= Z.to_nat 5)%nat
  /\ (List.length [(0, 8); (0, 9)]%nat = Z.to_nat 5 <-> 8 + 5 <= 10).
Proof.
  apply (get_ship_arr_truncated (init "p1" "s1") 5 8 0 [(0, 8); (0, 9)]%nat);
    [vm_compute; reflexivity | lia | lia | lia | vm_compute; reflexivity].
Defined.

(** [get_ship_arr] raises, with IndexError, exactly when the coordinate
    used as an index (the row for "x", the column for "y") is outside
    [-10, 10); any other orientation is answered with [None]. *)
Theorem get_ship_arr_errors (p : t) (ship_len x y : Z) (orientation : string) :
  wf p = true ->
  (~ (-10 <= y < 10) -> get_ship_arr p ship_len (x, y) "x" = Raise IndexError)
  /\ (-10 <= y < 10 -> exists v, get_ship_arr p ship_len (x, y) "x" = Ret (Some v))
  /\ (~ (-10 <= x < 10) -> get_ship_arr p ship_len (x, y) "y" = Raise IndexError)
  /\ (-10 <= x < 10 -> exists v, get_ship_arr p ship_len (x, y) "y" = Ret (Some v))
  /\ (orientation <> "x" -> orientation <> "y" ->
      get_ship_arr p ship_len (x, y) orientation = Ret None).
Proof.
  intros Hwf; destruct (wf_dims p Hwf) as [Hr Hc].
  unfold get_ship_arr.
  change (String.eqb "x" "x") with true;
    change (String.eqb "y" "x") with false;
    change (String.eqb "y" "y") with true; cbn iota.
  unfold Np.row_slice, Np.col_slice; rewrite Hr, Hc.
  repeat split.
  - intros H; rewrite norm_index_out_of_range by (cbn; lia); reflexivity.
  - intros H; destruct (norm_index_in_range 10 y) as [r ->]; [cbn; lia |].
    cbn [Py.bind]; eauto.
  - intros H; rewrite norm_index_out_of_range by (cbn; lia); reflexivity.
  - intros H; destruct (norm_index_in_range 10 x) as [r ->]; [cbn; lia |].
    cbn [Py.bind]; eauto.
  - intros H1 H2.
    rewrite (proj2 (String.eqb_neq orientation "x") H1).
    rewrite (proj2 (String.eqb_neq orientation "y") H2); reflexivity.
Qed.

Lemma get_ship_arr_errors_witness :
  (~ (-10 <= 12 < 10) ->
   get_ship_arr (init "p1" "s1") 2 (3, 12) "x" = Raise IndexError)
  /\ (-10 <= 12 < 10 ->
      exists v, get_ship_arr (init "p1" "s1") 2 (3, 12) "x" = Ret (Some v))
  /\ (~ (-10 <= 3 < 10) ->
      get_ship_arr (init "p1" "s1") 2 (3, 12) "y" = Raise IndexError)
  /\ (-10 <= 3 < 10 ->
      exists v, get_ship_arr (init "p1" "s1") 2 (3, 12) "y" = Ret (Some v))
  /\ ("z" <> "x" -> "z" <> "y" ->
      get_ship_arr (init "p1" "s1") 2 (3, 12) "z" = Ret None).
Proof.
  apply (get_ship_arr_errors (init "p1" "s1") 2 3 12 "z"); vm_compute; reflexivity.
Defined.

End Footprint.

(** ** Writing through a view *)

Section Fill.

Import PlayerModel.

Lemma cell_write_ne (a : Np.ndarray) (r c : nat) (x : Z) (pos : nat * nat) :
  pos <> (r, c) ->
  Np.cell (alter (fun row => <[c := x]> row) r a) pos = Np.cell a pos.
Proof.
  destruct pos as [r' c']; intros Hne; unfold Np.cell; cbn [fst snd].
  destruct (decide (r = r')) as [-> | Hr].
  - rewrite list_lookup_alter_eq.
    destruct (a !! r') as [row |]; cbn; [| reflexivity].
    rewrite list_lookup_insert_ne; [reflexivity | congruence].
  - rewrite list_lookup_alter_ne by exact Hr; reflexivity.
Qed.

Lemma cell_write_eq (a : Np.ndarray) (r c : nat) (x : Z) (row : list Z) :
  a !! r = Some row -> (c < List.length row)%nat ->
  Np.cell (alter (fun row => <[c := x]> row) r a) (r, c) = x.
Proof.
  intros Hr Hc; unfold Np.cell; cbn [fst snd].
  rewrite list_lookup_alter_eq, Hr; cbn.
  rewrite list_lookup_insert_eq by exact Hc; reflexivity.
Qed.

Lemma shape_write (rows cols : nat) (a : Np.ndarray) (r c : nat) (x : Z) :
  Np.has_shape rows cols a = true ->
  Np.has_shape rows cols (alter (fun row => <[c := x]> row) r a) = true.
Proof.
  intros Hs; apply has_shape_spec in Hs as [Hr Hall].
  apply has_shape_spec; split.
  - rewrite length_alter; exact Hr.
  - apply Forall_alter; [exact Hall |].
    intros row _ Hlen; rewrite length_insert; exact Hlen.
Qed.

Lemma fill_shape (rows cols : nat) (v : Np.view) (a : Np.ndarray) (x : Z) :
  Np.has_shape rows cols a = true ->
  Np.has_shape rows cols (Np.fill a v x) = true.
Proof.
  revert a; induction v as [| q v IH]; intros a Hs; [exact Hs |].
  apply (IH (alter (fun row => <[q.2 := x]> row) q.1 a)), shape_write, Hs.
Qed.

Lemma fill_other (v : Np.view) (a : Np.ndarray) (x : Z) (pos : nat * nat) :
  pos ∉ v -> Np.cell (Np.fill a v x) pos = Np.cell a pos.
Proof.
  revert a; induction v as [| q v IH]; intros a Hnot; [reflexivity |].
  apply not_elem_of_cons in Hnot as [Hne Hnot].
  change (Np.fill a (q :: v) x)
    with (Np.fill (alter (fun row => <[q.2 := x]> row) q.1 a) v x).
  rewrite IH by exact Hnot.
  apply cell_write_ne; destruct q; exact Hne.
Qed.

Lemma fill_inside (rows cols : nat) (v : Np.view) (a : Np.ndarray) (x : Z)
    (pos : nat * nat) :
  Np.has_shape rows cols a = true ->
  pos ∈ v -> (pos.1 < rows)%nat -> (pos.2 < cols)%nat ->
  Np.cell (Np.fill a v x) pos = x.
Proof.
  revert a; induction v as [| q v IH]; intros a Hs Hin Hr Hc.
  - apply elem_of_nil in Hin; contradiction.
  - change (Np.fill a (q :: v) x)
      with (Np.fill (alter (fun row => <[q.2 := x]> row) q.1 a) v x).
    destruct (decide (pos ∈ v)) as [Hv | Hv].
    + apply IH; [apply shape_write, Hs | exact Hv | exact Hr | exact Hc].
    + apply elem_of_cons in Hin as [-> | Hin]; [| contradiction].
      rewrite fill_other by exact Hv.
      destruct q as [r c]; cbn [fst snd] in *.
      pose proof (proj1 (has_shape_spec _ _ _) Hs) as [Hlen _].
      destruct (lookup_lt_is_Some_2 a r) as [row Hrow]; [lia |].
      apply (cell_write_eq a r c x row Hrow).
      rewrite (has_shape_row _ _ _ _ _ Hs Hrow); exact Hc.
Qed.

(** [add_ship_coord_to_grid] writes the marker into every cell of the
    view that lies on the grid and into no other cell, and touches
    nothing but the placement grid. *)
Theorem add_ship_coord_to_grid_writes (p : t) (ship_arr : Np.view) (marker : Z) :
  wf p = true ->
  let p' := add_ship_coord_to_grid p ship_arr marker in
  wf p' = true
  /\ (forall r c, (r, c) ∈ ship_arr -> (r < 10)%nat -> (c < 10)%nat ->
        Np.cell (grid p') (r, c) = marker)
  /\ (forall pos, pos ∉ ship_arr -> Np.cell (grid p') pos = Np.cell (grid p) pos)
  /\ ships p' = ships p
  /\ grid_attempts p' = grid_attempts p
  /\ moves_index p' = moves_index p
  /\ sunk_all p' = sunk_all p.
Proof.
  intros Hwf p'; apply andb_true_iff in Hwf as [Hg Ha].
  repeat split.
  - unfold wf; subst p'; cbn; rewrite Ha, andb_true_r.
    apply fill_shape, Hg.
  - intros r c Hin Hr Hc; subst p'; cbn.
    apply (fill_inside GRID_SIZE GRID_SIZE); [exact Hg | exact Hin | |];
      unfold GRID_SIZE; cbn; lia.
  - intros pos Hnot; subst p'; cbn; apply fill_other, Hnot.
Qed.

Lemma add_ship_coord_to_grid_writes_witness :
  let p := init "p1" "s1" in
  let p' := add_ship_coord_to_grid p [(0, 8); (0, 9)]%nat 5 in
  wf p' = true
  /\ (forall r c, (r, c) ∈ [(0, 8); (0, 9)]%nat -> (r < 10)%nat -> (c < 10)%nat ->
        Np.cell (grid p') (r, c) = 5)
  /\ (forall pos, pos ∉ [(0, 8); (0, 9)]%nat ->
        Np.cell (grid p') pos = Np.cell (grid p) pos)
  /\ ships p' = ships p
  /\ grid_attempts p' = grid_attempts p
  /\ moves_index p' = moves_index p
  /\ sunk_all p' = sunk_all p.
Proof.
  apply (add_ship_coord_to_grid_writes (init "p1" "s1") [(0, 8); (0, 9)]%nat 5).
  vm_compute; reflexivity.
Defined.

End Fill.

(** ** What add_ship answers *)

Section PlacementOutcome.

Import PlayerModel.

Lemma add_ship_after_arr (p : t) (ship_id : string) (coords : Z * Z)
    (orientation : string) (d : ship_def) :
  has_ship p ship_id = false ->
  SHIPS !! ship_id = Some d ->
  add_ship p ship_id coords orientation
  = (p, match get_ship_arr p (def_length d) coords orientation with
        | Raise e => Raise e
        | Ret _ => Raise TypeError
        end).
Proof.
  intros Hhas Hd; unfold add_ship, ShipModel.make_ship_by_id.
  rewrite Hhas, Hd; cbn [ShipModel.length ShipModel.init].
  destruct (get_ship_arr p (def_length d) coords orientation) as [arr |];
    [| reflexivity].
  rewrite is_space_available_raises; reflexivity.
Qed.

(** The answers of [add_ship] on a 10 x 10 board: [False] for a kind that
    is placed already; KeyError for any other kind that is not in the
    catalog; IndexError for a catalog kind whose row (orientation "x") or
    column (orientation "y") is outside [-10, 10); TypeError for a catalog
    kind in every other case.  The board is left as it was. *)
Theorem add_ship_outcome (p : t) (ship_id : string) (x y : Z)
    (orientation : string) :
  wf p = true ->
  (has_ship p ship_id = true ->
   add_ship p ship_id (x, y) orientation = (p, Ret false))
  /\ (has_ship p ship_id = false -> SHIPS !! ship_id = None ->
      add_ship p ship_id (x, y) orientation = (p, Raise KeyError))
  /\ (has_ship p ship_id = false -> is_Some (SHIPS !! ship_id) ->
      (orientation = "x" /\ ~ (-10 <= y < 10))
      \/ (orientation = "y" /\ ~ (-10 <= x < 10)) ->
      add_ship p ship_id (x, y) orientation = (p, Raise IndexError))
  /\ (has_ship p ship_id = false -> is_Some (SHIPS !! ship_id) ->
      (orientation = "x" -> -10 <= y < 10) ->
      (orientation = "y" -> -10 <= x < 10) ->
      add_ship p ship_id (x, y) orientation = (p, Raise TypeError)).
Proof.
  intros Hwf; destruct (wf_dims p Hwf) as [Hr Hc].
  split; [apply add_ship_duplicate |].
  split.
  { intros Hhas Hd; unfold add_ship, ShipModel.make_ship_by_id.
    rewrite Hhas, Hd; reflexivity. }
  split.
  - intros Hhas [d Hd] Hcase; rewrite (add_ship_after_arr _ _ _ _ d Hhas Hd).
    unfold get_ship_arr, Np.row_slice, Np.col_slice; rewrite Hr, Hc.
    destruct Hcase as [[-> Hy] | [-> Hx]].
    + change (String.eqb "x" "x") with true; cbn iota.
      rewrite norm_index_out_of_range by (cbn; lia); reflexivity.
    + change (String.eqb "y" "x") with false;
        change (String.eqb "y" "y") with true; cbn iota.
      rewrite norm_index_out_of_range by (cbn; lia); reflexivity.
  - intros Hhas [d Hd] Hx Hy; rewrite (add_ship_after_arr _ _ _ _ d Hhas Hd).
    unfold get_ship_arr, Np.row_slice, Np.col_slice; rewrite Hr, Hc.
    destruct (String.eqb_spec orientation "x") as [-> | Hnx].
    + specialize (Hx eq_refl).
      destruct (norm_index_in_range 10 y) as [r ->]; [cbn; lia | reflexivity].
    + destruct (String.eqb_spec orientation "y") as [-> | Hny]; [| reflexivity].
      specialize (Hy eq_refl).
      destruct (norm_index_in_range 10 x) as [r ->]; [cbn; lia | reflexivity].
Qed.

Lemma add_ship_outcome_witness :
  add_ship carrier_board "carrier" (3, 12) "x" = (carrier_board, Ret false)
  /\ add_ship carrier_board "frigate" (3, 12) "x" = (carrier_board, Raise KeyError)
  /\ add_ship carrier_board "cruiser" (3, 12) "x" = (carrier_board, Raise IndexError)
  /\ add_ship carrier_board "cruiser" (3, 12) "z" = (carrier_board, Raise TypeError).
Proof.
  assert (Hwf : wf carrier_board = true) by (vm_compute; reflexivity).
  split; [| split; [| split]].
  - apply (proj1 (add_ship_outcome carrier_board "carrier" 3 12 "x" Hwf)).
    vm_compute; reflexivity.
  - apply (proj1 (proj2 (add_ship_outcome carrier_board "frigate" 3 12 "x" Hwf)));
      vm_compute; reflexivity.
  - apply (proj1 (proj2 (proj2
             (add_ship_outcome carrier_board "cruiser" 3 12 "x" Hwf)))).
    + vm_compute; reflexivity.
    + vm_compute; eauto.
    + left; split; [reflexivity | lia].
  - apply (proj2 (proj2 (proj2
             (add_ship_outcome carrier_board "cruiser" 3 12 "z" Hwf)))).
    + vm_compute; reflexivity.
    + vm_compute; eauto.
    + discriminate.
    + discriminate.
Defined.

End PlacementOutcome.

(** ** What register_hit writes *)

Section Attacks.

Import PlayerModel.

(** No call of [register_hit] alters the identifiers, the placement grid
    or the kinds that are placed, and none sets the [sunk_all] flag. *)
Theorem register_hit_preserves (p : t) (coords : Z * Z) :
  let p' := (register_hit p coords).1 in
  id p' = id p
  /\ session_id p' = session_id p
  /\ grid p' = grid p
  /\ dom (ships p') = dom (ships p)
  /\ sunk_all p' = sunk_all p.
Proof.
  unfold register_hit.
  destruct (check_all_ships_added p); cbn [negb]; [| repeat split].
  destruct (sunk_all p) eqn:Hs; [repeat split; exact Hs |].
  destruct (get_ship_at_coords p coords) as [ship |] eqn:Hget;
    [| repeat split; exact Hs].
  unfold add_grid_attempt; destruct coords as [x y].
  destruct (Np.setitem2 (grid_attempts p) y x _) as [g |]; cbn [Py.bind];
    [| repeat split; exact Hs].
  destruct ship as [[ship_id s] |]; [| repeat split; exact Hs].
  rewrite is_sunk_all_raises by (cbn; apply insert_non_empty).
  cbn; repeat split; [| exact Hs].
  apply dom_insert_lookup_L.
  rewrite (get_ship_at_coords_Some _ _ _ _ Hget); eauto.
Qed.

Lemma getitem2_off_grid (a : Np.ndarray) (x y : Z) :
  Np.has_shape 10 10 a = true ->
  ~ (-10 <= x < 10 /\ -10 <= y < 10) ->
  Np.getitem2 a y x = Raise IndexError.
Proof.
  intros Hs Hout; unfold Np.getitem2.
  pose proof (proj1 (has_shape_spec _ _ _) Hs) as [Hlen _].
  unfold Np.nrows; rewrite Hlen.
  destruct (Np.norm_index 10 y) as [r |] eqn:Er; cbn [Py.bind].
  - destruct (a !! r) as [row |] eqn:Erow; [| reflexivity].
    rewrite (has_shape_row _ _ _ _ _ Hs Erow).
    rewrite norm_index_out_of_range; [reflexivity |].
    intros Hx; apply Hout; split; [cbn in Hx; lia |].
    destruct (Z_lt_dec y (-10)) as [Hlo |];
      [rewrite norm_index_out_of_range in Er by (cbn; lia); discriminate |].
    destruct (Z_lt_dec y 10) as [| Hhi]; [lia |].
    rewrite norm_index_out_of_range in Er by (cbn; lia); discriminate.
  - unfold Np.norm_index in Er.
    repeat match type of Er with
           | context [if ?b then _ else _] => destruct b; try discriminate
           end.
    injection Er as <-; reflexivity.
Qed.

(** An attack at a coordinate outside [-10, 10) on either axis, on a
    board that accepts attacks, raises IndexError and leaves the board as
    it was. *)
Theorem register_hit_off_grid (p : t) (x y : Z) :
  wf p = true ->
  size (ships p) = 5%nat ->
  sunk_all p = false ->
  ~ (-10 <= x < 10 /\ -10 <= y < 10) ->
  register_hit p (x, y) = (p, Raise IndexError).
Proof.
  intros Hwf Hall Hsunk Hout.
  apply andb_true_iff in Hwf as [Hg _].
  apply check_all_ships_added_size in Hall.
  unfold register_hit, get_ship_at_coords; rewrite Hall, Hsunk; cbn [negb].
  rewrite (getitem2_off_grid _ _ _ Hg Hout); reflexivity.
Qed.

Lemma register_hit_off_grid_witness :
  register_hit full_board (10, 3) = (full_board, Raise IndexError).
Proof.
  apply (register_hit_off_grid full_board 10 3);
    [vm_compute; reflexivity | vm_compute; reflexivity | reflexivity | lia].
Defined.




Lemma register_hit_init (id_ session_id_ : string) (coords : Z * Z) :
  register_hit (init id_ session_id_) coords
  = (init id_ session_id_, Ret (false, None, Some "not_all_ships_added")).
Proof. reflexivity. Qed.

Lemma board_step_init (id_ session_id_ : string) (p q : t) :
  board_step p q -> p = init id_ session_id_ -> q = init id_ session_id_.
Proof.
  intros Hstep; destruct Hstep as [p ship_id coords o | p coords]; intros ->.
  - apply add_ship_keeps_state.
  - rewrite register_hit_init; reflexivity.
Qed.

Lemma check_all_ships_added_init (id_ session_id_ : string) :
  check_all_ships_added (init id_ session_id_) = false.
Proof. reflexivity. Qed.

(** A board as [__init__] builds it stays as it is under every sequence
    of [add_ship] and [register_hit] calls: no ship is ever placed on it,
    and every attack on it is answered "not_all_ships_added". *)
Theorem board_never_changes (id_ session_id_ : string) (p : t) :
  rtc board_step (init id_ session_id_) p ->
  p = init id_ session_id_
  /\ check_all_ships_added p = false
  /\ forall coords,
       register_hit p coords = (p, Ret (false, None, Some "not_all_ships_added")).
Proof.
  intros Hreach.
  assert (Heq : p = init id_ session_id_).
  { revert p Hreach.
    apply (rtc_ind_r (fun q => q = init id_ session_id_) (init id_ session_id_));
      [reflexivity |].
    intros p q _ Hstep Hp; exact (board_step_init _ _ _ _ Hstep Hp). }
  rewrite Heq; split; [reflexivity |].
  split; [apply check_all_ships_added_init |].
  intros coords; apply register_hit_init.
Qed.

Lemma board_never_changes_witness :
  let p := (register_hit
              (add_ship (init "p1" "s1") "carrier" (0, 0) "x").1 (0, 0)).1 in
  p = init "p1" "s1"
  /\ check_all_ships_added p = false
  /\ forall coords,
       register_hit p coords = (p, Ret (false, None, Some "not_all_ships_added")).
Proof.
  apply (board_never_changes "p1" "s1").
  eapply rtc_l; [apply step_add_ship |].
  eapply rtc_l; [apply step_register_hit |].
  apply rtc_refl.
Defined.

End Attacks.

(** ** Joining a game *)

Section Joining.

Import GameModel.

Lemma dict_get_set_eq (d : list (string * PlayerModel.t)) (k : string)
    (v : PlayerModel.t) :
  dict_get (dict_set d k v) k = Some v.
Proof.
  induction d as [| [k' v'] d IH]; cbn.
  - rewrite String.eqb_refl; reflexivity.
  - destruct (String.eqb_spec k' k) as [-> | Hne]; cbn.
    + rewrite String.eqb_refl; reflexivity.
    + rewrite (proj2 (String.eqb_neq k' k) Hne); exact IH.
Qed.

Lemma dict_get_set_ne (d : list (string * PlayerModel.t)) (k k' : string)
    (v : PlayerModel.t) :
  k <> k' -> dict_get (dict_set d k v) k' = dict_get d k'.
Proof.
  intros Hne; induction d as [| [k0 v0] d IH]; cbn.
  - rewrite (proj2 (String.eqb_neq k k') Hne); reflexivity.
  - destruct (String.eqb_spec k0 k) as [-> | Hne0]; cbn.
    + rewrite (proj2 (String.eqb_neq k k') Hne); reflexivity.
    + destruct (String.eqb k0 k'); [reflexivity | exact IH].
Qed.

Lemma dict_set_fresh (d : list (string * PlayerModel.t)) (k : string)
    (v : PlayerModel.t) :
  dict_get d k = None -> dict_set d k v = d ++ [(k, v)].
Proof.
  induction d as [| [k' v'] d IH]; cbn; [reflexivity |].
  destruct (String.eqb k' k); [discriminate |].
  intros H; rewrite IH by exact H; reflexivity.
Qed.

Lemma dict_get_not_key (d : list (string * PlayerModel.t)) (k : string) :
  k ∉ d.*1 -> dict_get d k = None.
Proof.
  induction d as [| [k' v'] d IH]; cbn; [reflexivity |].
  intros Hnot; apply not_elem_of_cons in Hnot as [Hne Hnot].
  rewrite (proj2 (String.eqb_neq k' k)) by congruence.
  apply IH, Hnot.
Qed.

Lemma dict_set_length_le (d : list (string * PlayerModel.t)) (k : string)
    (v : PlayerModel.t) :
  (List.length (dict_set d k v) <= S (List.length d))%nat.
Proof.
  induction d as [| [k' v'] d IH]; cbn; [lia |].
  destruct (String.eqb k' k); cbn; lia.
Qed.

Lemma dict_set_Forall (P : string * PlayerModel.t -> Prop)
    (d : list (string * PlayerModel.t)) (k : string) (v : PlayerModel.t) :
  Forall P d -> P (k, v) -> Forall P (dict_set d k v).
Proof.
  intros Hd Hkv; induction Hd as [| [k' v'] d Hx Hd IH]; cbn.
  - constructor; [exact Hkv | constructor].
  - destruct (String.eqb k' k); constructor; assumption.
Qed.

Lemma add_player_open (g : t) (p : PlayerModel.t) :
  (List.length (players g) < 2)%nat ->
  add_player g p
  = ({| id := id g;
        players := dict_set (players g) (PlayerModel.id p) p;
        game_status := game_status g;
        win_player := win_player g |}, Some p).
Proof.
  intros Hlt; unfold add_player.
  rewrite (proj2 (Nat.leb_gt 2 _)) by exact Hlt; reflexivity.
Qed.

Lemma add_player_full (g : t) (p : PlayerModel.t) :
  (2 <= List.length (players g))%nat -> add_player g p = (g, None).
Proof.
  intros Hle; unfold add_player.
  rewrite (proj2 (Nat.leb_le 2 _)) by exact Hle; reflexivity.
Qed.

(** A join into a game with a free slot answers the new player, who is
    then found under his identifier; the other identifiers resolve as
    before, and a player whose identifier is new comes last in the join
    order. *)
Theorem add_player_joins (g : t) (p : PlayerModel.t) :
  (List.length (players g) < 2)%nat ->
  let r := add_player g p in
  r.2 = Some p
  /\ get_player r.1 (PlayerModel.id p) = Ret p
  /\ has_player r.1 (PlayerModel.id p) = true
  /\ (forall k, k <> PlayerModel.id p -> get_player r.1 k = get_player g k)
  /\ (has_player g (PlayerModel.id p) = false ->
      players r.1 = players g ++ [(PlayerModel.id p, p)])
  /\ id r.1 = id g
  /\ game_status r.1 = game_status g
  /\ win_player r.1 = win_player g.
Proof.
  intros Hlt r; subst r; rewrite add_player_open by exact Hlt; cbn [fst snd].
  unfold get_player, has_player; cbn [players id game_status win_player].
  repeat split.
  - rewrite dict_get_set_eq; reflexivity.
  - rewrite dict_get_set_eq; apply bool_decide_eq_true; eauto.
  - intros k Hk; rewrite dict_get_set_ne by congruence; reflexivity.
  - intros Hnone; apply dict_set_fresh.
    apply bool_decide_eq_false in Hnone.
    destruct (dict_get (players g) (PlayerModel.id p)); [| reflexivity].
    exfalso; apply Hnone; eauto.
Qed.

Lemma add_player_joins_witness :
  let g := one_player_game in
  let p := PlayerModel.init "p2" "s2" in
  let r := add_player g p in
  r.2 = Some p
  /\ get_player r.1 (PlayerModel.id p) = Ret p
  /\ has_player r.1 (PlayerModel.id p) = true
  /\ (forall k, k <> PlayerModel.id p -> get_player r.1 k = get_player g k)
  /\ (has_player g (PlayerModel.id p) = false ->
      players r.1 = players g ++ [(PlayerModel.id p, p)])
  /\ id r.1 = id g
  /\ game_status r.1 = game_status g
  /\ win_player r.1 = win_player g.
Proof.
  apply (add_player_joins one_player_game (PlayerModel.init "p2" "s2")).
  vm_compute; lia.
Defined.

Lemma player_keys (qs : list PlayerModel.t) :
  ((fun p => (PlayerModel.id p, p)) <$> qs).*1 = PlayerModel.id <$> qs.
Proof.
  induction qs as [| q qs IH]; [reflexivity |].
  cbn; f_equal; exact IH.
Qed.

Lemma join_all_from (ps qs : list PlayerModel.t) (g : t) :
  players g = (fun p => (PlayerModel.id p, p)) <$> qs ->
  (List.length qs <= 2)%nat ->
  NoDup (PlayerModel.id <$> (qs ++ ps)) ->
  players (join_all g ps)
  = (fun p => (PlayerModel.id p, p)) <$> take 2 (qs ++ ps).
Proof.
  revert qs g; induction ps as [| p ps IH]; intros qs g Hg Hlen Hnd.
  - cbn; rewrite app_nil_r, take_ge by exact Hlen; exact Hg.
  - change (join_all g (p :: ps)) with (join_all (add_player g p).1 ps).
    assert (Hlg : List.length (players g) = List.length qs)
      by (rewrite Hg; apply length_fmap).
    rewrite fmap_app, fmap_cons in Hnd.
    apply NoDup_app in Hnd as (Hq & Hdisj & Hps).
    apply NoDup_cons in Hps as [Hp Hps].
    destruct (decide (List.length qs = 2)%nat) as [Hfull | Hopen].
    + rewrite add_player_full by lia; cbn [fst].
      rewrite (IH qs g Hg Hlen).
      * rewrite !take_app_le by lia; reflexivity.
      * rewrite fmap_app; apply NoDup_app; split; [exact Hq |].
        split; [| exact Hps].
        intros k Hk Hin; apply (Hdisj k Hk); right; exact Hin.
    + rewrite add_player_open by lia; cbn [fst].
      rewrite (IH (qs ++ [p])).
      * rewrite <- app_assoc; reflexivity.
      * cbn [players]; rewrite dict_set_fresh.
        -- rewrite Hg, fmap_app; reflexivity.
        -- apply dict_get_not_key; rewrite Hg, player_keys.
           intros Hin; apply (Hdisj _ Hin); left.
      * rewrite length_app; cbn; lia.
      * rewrite <- app_assoc; cbn [app].
        rewrite fmap_app, fmap_cons; apply NoDup_app; split; [exact Hq |].
        split; [exact Hdisj |].
        apply NoDup_cons; split; assumption.
Qed.

(** Of the players that try to join a new game one after the other, with
    identifiers that differ, the first two are the players of the game,
    in the order in which they joined; every later join changes
    nothing. *)
Theorem join_all_first_two (game_id : string) (ps : list PlayerModel.t) :
  NoDup (PlayerModel.id <$> ps) ->
  players (join_all (init game_id) ps)
  = (fun p => (PlayerModel.id p, p)) <$> take 2 ps.
Proof.
  intros Hnd; apply (join_all_from ps [] (init game_id));
    [reflexivity | cbn; lia | exact Hnd].
Qed.

Lemma join_all_first_two_witness :
  let ps := [PlayerModel.init "p1" "s1"; PlayerModel.init "p2" "s2";
             PlayerModel.init "p3" "s3"] in
  players (join_all (init "g1") ps)
  = (fun p => (PlayerModel.id p, p)) <$> take 2 ps.
Proof.
  apply (join_all_first_two "g1"
           [PlayerModel.init "p1" "s1"; PlayerModel.init "p2" "s2";
            PlayerModel.init "p3" "s3"]).
  apply (bool_decide_unpack _); vm_compute; exact I.
Defined.

End Joining.

(** ** Looking a player up by session *)

Section Sessions.

Import GameModel.

Lemma check_session_iff (p : PlayerModel.t) (tok : option string) :
  PlayerModel.check_session p tok = true <-> Some (PlayerModel.session_id p) = tok.
Proof.
  unfold PlayerModel.check_session; rewrite andb_true_iff.
  rewrite !bool_decide_eq_true; split.
  - intros [_ ->]; reflexivity.
  - intros <-; split; [discriminate | reflexivity].
Qed.

(** [get_player_by_session_id] finds a player exactly when a player of
    the game would pass [check_session] with the token, and the player it
    finds is one of the game and passes it; so the missing token [None]
    finds nobody. *)
Theorem get_player_by_session_id_authorised (g : t) (tok : option string) :
  (forall p, get_player_by_session_id g tok = Some p ->
     In p (players g).*2 /\ PlayerModel.check_session p tok = true)
  /\ (get_player_by_session_id g tok = None <->
      forall p, In p (players g).*2 -> PlayerModel.check_session p tok = false)
  /\ get_player_by_session_id g None = None.
Proof.
  split; [| split].
  - intros p; unfold get_player_by_session_id.
    destruct (List.filter _ _) as [| q l] eqn:E; [discriminate |].
    cbn; intros [= <-].
    assert (Hin : In q (List.filter
               (fun p => bool_decide (Some (PlayerModel.session_id p) = tok))
               (players g).*2)) by (rewrite E; left; reflexivity).
    apply filter_In in Hin as [Hin Hb].
    split; [exact Hin |].
    apply bool_decide_eq_true in Hb; apply check_session_iff; exact Hb.
  - split.
    + unfold get_player_by_session_id.
      destruct (List.filter _ _) as [| q l] eqn:E; [| discriminate].
      intros _ p Hin.
      destruct (PlayerModel.check_session p tok) eqn:Hc; [| reflexivity].
      apply check_session_iff in Hc.
      assert (Hf : In p (List.filter
                 (fun p => bool_decide (Some (PlayerModel.session_id p) = tok))
                 (players g).*2)).
      { apply filter_In; split; [exact Hin |].
        apply bool_decide_eq_true; exact Hc. }
      rewrite E in Hf; destruct Hf.
    + intros H; apply get_player_by_session_id_absent.
      intros p Hin Heq; apply check_session_iff in Heq.
      rewrite (H p Hin) in Heq; discriminate.
  - apply get_player_by_session_id_absent; intros p _; discriminate.
Qed.

End Sessions.

(** ** Exporting a game *)

Section GameExport.

Import GameModel.

Lemma board_export_returns (p : PlayerModel.t) (viewer : option string) :
  (viewer = Some (PlayerModel.id p) -> PlayerModel.ships p = ∅) ->
  exists e, PlayerModel.export p viewer = Ret e.
Proof.
  intros H; unfold PlayerModel.export.
  destruct (bool_decide (viewer = Some (PlayerModel.id p))) eqn:E.
  - apply bool_decide_eq_true in E; rewrite (H E).
    unfold PlayerModel.iter_dict; rewrite map_to_list_empty; cbn; eauto.
  - cbn; eauto.
Qed.

Lemma board_export_raises (p : PlayerModel.t) (viewer : option string) (e : exn) :
  PlayerModel.export p viewer = Raise e -> e = AttributeError.
Proof.
  unfold PlayerModel.export.
  destruct (bool_decide (viewer = Some (PlayerModel.id p))); [| discriminate].
  destruct (PlayerModel.iter_dict (PlayerModel.ships p)) as [| k l]; cbn;
    [discriminate | congruence].
Qed.

Lemma list_map_returns {A B} (f : A -> res B) (l : list A) :
  Forall (fun a => exists b, f a = Ret b) l ->
  exists bs, Py.list_map f l = Ret bs /\ Forall2 (fun a b => f a = Ret b) l bs.
Proof.
  induction 1 as [| a l [b Hb] _ (bs & Hbs & Hall)]; cbn.
  - exists []; split; [reflexivity | constructor].
  - rewrite Hb, Hbs; cbn; exists (b :: bs); split; [reflexivity |].
    constructor; assumption.
Qed.

Lemma list_map_raises {A B} (f : A -> res B) (l : list A) (e : exn) :
  (forall a e', In a l -> f a = Raise e' -> e' = e) ->
  (exists a, In a l /\ f a = Raise e) ->
  Py.list_map f l = Raise e.
Proof.
  induction l as [| a l IH]; intros Hall (a0 & Hin & Hr); [destruct Hin |].
  cbn; destruct (f a) as [b | e'] eqn:Ea; cbn.
  - rewrite IH; [reflexivity | |].
    + intros a1 e1 Hin1; apply Hall; right; exact Hin1.
    + destruct Hin as [<- | Hin]; [congruence | eauto].
  - f_equal; apply (Hall a); [left; reflexivity | exact Ea].
Qed.

(** The export of a game returns, with one export per player in join
    order, unless the viewer is a player of the game whose board holds a
    ship; then it raises AttributeError. *)
Theorem game_export_returns (g : t) (viewer : option string) :
  ((forall p, In p (players g).*2 ->
      viewer = Some (PlayerModel.id p) -> PlayerModel.ships p = ∅) ->
   exists es,
     export g viewer
     = Ret {| e_id := id g; e_game_status := game_status g;
              e_win_player := win_player g; e_players := es |}
     /\ Forall2 (fun p e => PlayerModel.export p viewer = Ret e)
                (players g).*2 es)
  /\ ((exists p, In p (players g).*2
         /\ viewer = Some (PlayerModel.id p) /\ PlayerModel.ships p <> ∅) ->
      export g viewer = Raise AttributeError).
Proof.
  split.
  - intros H; unfold export.
    destruct (list_map_returns (fun p => PlayerModel.export p viewer)
                (players g).*2) as (es & Hes & Hall).
    { apply Forall_forall; intros p Hin; apply board_export_returns.
      apply H, list_elem_of_In, Hin. }
    rewrite Hes; cbn; eauto.
  - intros (p & Hin & Hv & Hne); unfold export.
    rewrite (list_map_raises _ _ AttributeError); [reflexivity | |].
    + intros a e' _; apply board_export_raises.
    + exists p; split; [exact Hin |].
      rewrite Hv; apply export_owner_raises, Hne.
Qed.

End GameExport.

(** ** What a game can become *)

Section GameInvariant.

Import GameModel.

Lemma game_step_keeps (gid : string) (g g' : t) :
  game_step g g' ->
  id g = gid /\ game_status g = None /\ win_player g = None
  /\ (List.length (players g) <= 2)%nat
  /\ Forall (fun kp => exists s, kp.2 = PlayerModel.init kp.1 s) (players g) ->
  id g' = gid /\ game_status g' = None /\ win_player g' = None
  /\ (List.length (players g') <= 2)%nat
  /\ Forall (fun kp => exists s, kp.2 = PlayerModel.init kp.1 s) (players g').
Proof.
  intros Hstep (Hid & Hst & Hwin & Hlen & Hall).
  destruct Hstep as [g i s | g p c].
  - destruct (decide (List.length (players g) < 2)%nat) as [Hlt | Hge].
    + rewrite add_player_open by exact Hlt; cbn.
      repeat split; try assumption.
      * pose proof (dict_set_length_le (players g) i (PlayerModel.init i s)); lia.
      * apply dict_set_Forall; [exact Hall | cbn; eauto].
    + rewrite add_player_full by lia; cbn; repeat split; assumption.
  - rewrite make_move_raises; cbn; repeat split; assumption.
Qed.

(** Whatever [add_player] and [make_move] calls a new game goes through:
    it has at most two players, each with the board [__init__] gave him;
    its [game_status] and its [win_player] stay [None], so no game is
    ever decided; and every move on it raises NameError. *)
Theorem game_never_decided (gid : string) (g : t) :
  rtc game_step (init gid) g ->
  id g = gid
  /\ game_status g = None
  /\ win_player g = None
  /\ (List.length (players g) <= 2)%nat
  /\ Forall (fun kp => exists s, kp.2 = PlayerModel.init kp.1 s) (players g)
  /\ forall p coords, make_move g p coords = (g, Raise NameError).
Proof.
  intros Hreach.
  assert (Hinv : id g = gid /\ game_status g = None /\ win_player g = None
                 /\ (List.length (players g) <= 2)%nat
                 /\ Forall (fun kp => exists s, kp.2 = PlayerModel.init kp.1 s)
                      (players g)).
  { revert g Hreach; apply rtc_ind_r.
    - cbn; repeat split; [lia | constructor].
    - intros g g' _ Hstep IH; exact (game_step_keeps gid g g' Hstep IH). }
  destruct Hinv as (H1 & H2 & H3 & H4 & H5).
  repeat split; try assumption.
Qed.

Lemma game_never_decided_witness :
  let g := (make_move
              (add_player one_player_game (PlayerModel.init "p2" "s2")).1
              (PlayerModel.init "p1" "s1") (0, 0)).1 in
  id g = "g1"
  /\ game_status g = None
  /\ win_player g = None
  /\ (List.length (players g) <= 2)%nat
  /\ Forall (fun kp => exists s, kp.2 = PlayerModel.init kp.1 s) (players g)
  /\ forall p coords, make_move g p coords = (g, Raise NameError).
Proof.
  apply (game_never_decided "g1").
  eapply rtc_l; [apply (step_add_player _ "p1" "s1") |].
  eapply rtc_l; [apply (step_add_player _ "p2" "s2") |].
  eapply rtc_l; [apply step_make_move |].
  apply rtc_refl.
Defined.

End GameInvariant.

(** ** The registry of games *)

Section Registry.

Import GameModel.

Lemma get_game_by_id_lookup (GAMES : gmap string t) (game_id : string) :
  get_game_by_id GAMES game_id = GAMES !! game_id.
Proof.
  unfold get_game_by_id.
  destruct (GAMES !! game_id) as [g |] eqn:E.
  - rewrite bool_decide_eq_true_2 by eauto; reflexivity.
  - rewrite bool_decide_eq_false_2 by (intros [g Hg]; discriminate).
    reflexivity.
Qed.

(** [create_game_from_id] registers a new, empty game under the
    identifier the game drew for itself, whatever identifier it was
    called with: the new game is found under its own identifier, every
    other identifier resolves as before, and a lookup answers [None]
    exactly for the identifiers that [game_exists] denies. *)
Theorem create_game_from_id_registers (GAMES : gmap string t)
    (game_id fresh_id : string) :
  let r := create_game_from_id GAMES game_id fresh_id in
  r.2 = init fresh_id
  /\ get_game_by_id r.1 fresh_id = Some r.2
  /\ game_exists r.1 fresh_id = true
  /\ (forall k, k <> fresh_id ->
        get_game_by_id r.1 k = get_game_by_id GAMES k
        /\ game_exists r.1 k = game_exists GAMES k)
  /\ (forall k, get_game_by_id r.1 k = None <-> game_exists r.1 k = false).
Proof.
  cbn zeta; unfold create_game_from_id; cbn [fst snd id init].
  split; [reflexivity |].
  split; [rewrite get_game_by_id_lookup; apply lookup_insert_eq |].
  split; [unfold game_exists; rewrite lookup_insert_eq;
          apply bool_decide_eq_true; eauto |].
  split.
  - intros k Hk; unfold game_exists; rewrite !get_game_by_id_lookup.
    rewrite lookup_insert_ne by congruence; split; reflexivity.
  - intros k; rewrite get_game_by_id_lookup; unfold game_exists.
    rewrite bool_decide_eq_false, <- eq_None_not_Some; reflexivity.
Qed.

End Registry.

(** ** Joining over HTTP *)

Section Join.

Import Handlers.

Lemma players_post_unknown (GAMES : gmap string GameModel.t) (game_id : string)
    (player : PlayerModel.t) :
  GAMES !! game_id = None ->
  players_post GAMES game_id player
  = (GAMES, Ret (respond BNone 404 "game_not_found" None)).
Proof.
  intros H; unfold players_post, GameModel.game_exists; rewrite H.
  rewrite bool_decide_eq_false_2 by (intros [g Hg]; discriminate).
  reflexivity.
Qed.

Lemma players_post_found (GAMES : gmap string GameModel.t) (game_id : string)
    (player : PlayerModel.t) (g : GameModel.t) :
  GAMES !! game_id = Some g ->
  players_post GAMES game_id player
  = (<[game_id := (GameModel.add_player g player).1]> GAMES,
     Ret match (GameModel.add_player g player).2 with
         | None => respond BNone 401 "max_players_already_joined" None
         | Some player_ =>
             respond
               (BJoined (GameModel.id (GameModel.add_player g player).1)
                        (PlayerModel.id player_))
               200 "ok"
               (Some [(SESSION_KEY, PlayerModel.session_id player_)])
         end).
Proof.
  intros H; unfold players_post, GameModel.game_exists.
  rewrite get_game_by_id_lookup, H.
  rewrite bool_decide_eq_true_2 by eauto; cbn [negb].
  destruct (GameModel.add_player g player).2; reflexivity.
Qed.

(** [PlayersHandler.post]: a game that is not registered is answered 404
    "game_not_found"; a registered game with two players is answered 401
    "max_players_already_joined"; in both cases the registry is as it
    was.  A registered game with a free slot is answered 200 "ok" with the
    game's and the new player's identifiers and the player's session
    token in the session header; the registered game then holds the player
    under that identifier, and the player passes [check_session] with the
    token of the header. *)
Theorem players_post_answers (GAMES : gmap string GameModel.t) (game_id : string)
    (player : PlayerModel.t) :
  (GAMES !! game_id = None ->
   players_post GAMES game_id player
   = (GAMES, Ret (respond BNone 404 "game_not_found" None)))
  /\ (forall g, GAMES !! game_id = Some g ->
        (2 <= List.length (GameModel.players g))%nat ->
        players_post GAMES game_id player
        = (GAMES, Ret (respond BNone 401 "max_players_already_joined" None)))
  /\ (forall g, GAMES !! game_id = Some g ->
        (List.length (GameModel.players g) < 2)%nat ->
        exists g',
          players_post GAMES game_id player
          = (<[game_id := g']> GAMES,
             Ret {| status := 200;
                    headers := [("Content-Type", "application/json");
                                (SESSION_KEY, PlayerModel.session_id player)];
                    code := "ok";
                    data := BJoined (GameModel.id g) (PlayerModel.id player) |})
          /\ GameModel.get_player g' (PlayerModel.id player) = Ret player
          /\ PlayerModel.check_session player
               (Some (PlayerModel.session_id player)) = true
          /\ (List.length (GameModel.players g') <= 2)%nat).
Proof.
  split; [apply players_post_unknown |]; split.
  - intros g Hg Hfull; rewrite (players_post_found _ _ _ g Hg).
    rewrite add_player_full by exact Hfull; cbn [fst snd].
    rewrite insert_id by exact Hg; reflexivity.
  - intros g Hg Hopen; rewrite (players_post_found _ _ _ g Hg).
    rewrite add_player_open by exact Hopen; cbn [fst snd GameModel.id].
    eexists; split; [reflexivity |].
    unfold GameModel.get_player; cbn [GameModel.players].
    rewrite dict_get_set_eq; split; [reflexivity |].
    split; [apply check_session_iff; reflexivity |].
    pose proof (dict_set_length_le (GameModel.players g)
                  (PlayerModel.id player) player); lia.
Qed.

Lemma players_post_answers_witness :
  let GAMES := (GameModel.create_game_from_id ∅ "g0" "g1").1 in
  let player := PlayerModel.init "p1" "s1" in
  players_post GAMES "g0" player
  = (GAMES, Ret (respond BNone 404 "game_not_found" None))
  /\ exists g',
       players_post GAMES "g1" player
       = (<["g1" := g']> GAMES,
          Ret {| status := 200;
                 headers := [("Content-Type", "application/json");
                             (SESSION_KEY, PlayerModel.session_id player)];
                 code := "ok";
                 data := BJoined (GameModel.id (GameModel.init "g1"))
                           (PlayerModel.id player) |})
       /\ GameModel.get_player g' (PlayerModel.id player) = Ret player
       /\ PlayerModel.check_session player
            (Some (PlayerModel.session_id player)) = true
       /\ (List.length (GameModel.players g') <= 2)%nat.
Proof.
  split.
  - apply (proj1 (players_post_answers
                    (GameModel.create_game_from_id ∅ "g0" "g1").1 "g0"
                    (PlayerModel.init "p1" "s1"))).
    vm_compute; reflexivity.
  - apply (proj2 (proj2 (players_post_answers
                    (GameModel.create_game_from_id ∅ "g0" "g1").1 "g1"
                    (PlayerModel.init "p1" "s1"))) (GameModel.init "g1")).
    + vm_compute; reflexivity.
    + vm_compute; lia.
Defined.

End Join.

(** ** Reading a move *)

Section Moves.

Import PlayerModel.

Lemma str_split_nonempty (sep : Ascii.ascii) (s : string) :
  str_split sep s <> [].
Proof.
  destruct s as [| c s]; cbn; [discriminate |].
  destruct (Ascii.eqb c sep); [discriminate |].
  destruct (str_split sep s); discriminate.
Qed.

Lemma str_split_cons (sep : Ascii.ascii) (s a : string) (rest : list string) :
  str_split sep s = a :: rest ->
  ~ In sep (String.list_ascii_of_string a)
  /\ ((rest = [] /\ s = a)
      \/ exists s', s = String.append a (String sep s') /\ str_split sep s' = rest).
Proof.
  revert a rest; induction s as [| c s IH]; intros a rest; cbn.
  - intros [= <- <-]; split; [intros [] | left; split; reflexivity].
  - destruct (Ascii.eqb_spec c sep) as [-> | Hne].
    + intros [= <- <-]; split; [intros [] |].
      right; exists s; split; reflexivity.
    + destruct (str_split sep s) as [| part parts] eqn:E;
        [exfalso; exact (str_split_nonempty sep s E) |].
      intros [= <- <-].
      destruct (IH part parts eq_refl) as [Hnot Hcase].
      split; [cbn; intros [Hc | Hin]; [congruence | exact (Hnot Hin)] |].
      destruct Hcase as [[-> ->] | (s' & -> & Hs')].
      * left; split; reflexivity.
      * right; exists s'; split; [reflexivity | exact Hs'].
Qed.

Lemma str_split_no_sep (sep : Ascii.ascii) (b : string) :
  ~ In sep (String.list_ascii_of_string b) -> str_split sep b = [b].
Proof.
  induction b as [| c b IH]; cbn; [reflexivity |].
  intros Hnot.
  destruct (Ascii.eqb_spec c sep) as [-> | Hne]; [exfalso; apply Hnot; left; reflexivity |].
  rewrite IH by (intros Hin; apply Hnot; right; exact Hin); reflexivity.
Qed.

Lemma str_split_app (sep : Ascii.ascii) (a s' : string) :
  ~ In sep (String.list_ascii_of_string a) ->
  str_split sep (String.append a (String sep s')) = a :: str_split sep s'.
Proof.
  induction a as [| c a IH]; simpl.
  - intros _; rewrite Ascii.eqb_refl; reflexivity.
  - intros Hnot.
    destruct (Ascii.eqb_spec c sep) as [-> | Hne]; [exfalso; apply Hnot; left; reflexivity |].
    rewrite IH by (intros Hin; apply Hnot; right; exact Hin); reflexivity.
Qed.

Lemma parse_move_parts (int_ : string -> option Z) (move_code : string)
    (x y : Z) :
  parse_move int_ move_code = Some (x, y) <->
  exists a b,
    move_code = String.append a (String "-" b)
    /\ ~ In "-"%char (String.list_ascii_of_string a) /\ ~ In "-"%char (String.list_ascii_of_string b)
    /\ int_ a = Some x /\ int_ b = Some y.
Proof.
  unfold parse_move; split.
  - destruct (str_split "-" move_code) as [| a [| b [| c rest]]] eqn:E;
      cbn; try discriminate.
    destruct (int_ a) as [x' |] eqn:Ea; [| discriminate].
    destruct (int_ b) as [y' |] eqn:Eb; [| discriminate].
    intros [= <- <-].
    destruct (str_split_cons _ _ _ _ E) as [Ha [[Hnil _] | (s' & -> & Hs')]];
      [discriminate |].
    destruct (str_split_cons _ _ _ _ Hs') as [Hb [[_ ->] | (s'' & _ & Hs'')]].
    + exists a, b; repeat split; assumption.
    + exfalso; exact (str_split_nonempty _ _ Hs'').
  - intros (a & b & -> & Ha & Hb & Hx & Hy).
    rewrite str_split_app, str_split_no_sep by assumption; cbn.
    rewrite Hx, Hy; reflexivity.
Qed.

(** [parse_move] answers coordinates exactly for a code made of two
    pieces around one "-", neither holding a further "-", that [int]
    both accepts; the coordinates are what [int] makes of the pieces, the
    first as x.  Every other code is answered [None]. *)
Theorem parse_move_accepts (int_ : string -> option Z) (move_code : string)
    (x y : Z) :
  parse_move int_ move_code = Some (x, y) <->
  exists a b,
    move_code = String.append a (String "-" b)
    /\ ~ In "-"%char (String.list_ascii_of_string a) /\ ~ In "-"%char (String.list_ascii_of_string b)
    /\ int_ a = Some x /\ int_ b = Some y.
Proof. apply parse_move_parts. Qed.

(** Since "-" is what separates the two numbers, a number written with a
    minus sign never gets through: if [int] answers a negative number
    only for text that holds a "-", the coordinates that [parse_move]
    answers are not negative. *)
Theorem parse_move_not_negative (int_ : string -> option Z)
    (move_code : string) (x y : Z) :
  (forall s z, int_ s = Some z -> z < 0 -> In "-"%char (String.list_ascii_of_string s)) ->
  parse_move int_ move_code = Some (x, y) ->
  0 <= x /\ 0 <= y.
Proof.
  intros Hint Hparse.
  apply parse_move_parts in Hparse as (a & b & _ & Ha & Hb & Hx & Hy).
  split.
  - destruct (Z_lt_dec x 0) as [Hneg |]; [| lia].
    exfalso; exact (Ha (Hint a x Hx Hneg)).
  - destruct (Z_lt_dec y 0) as [Hneg |]; [| lia].
    exfalso; exact (Hb (Hint b y Hy Hneg)).
Qed.

Lemma digits_of_nonneg (s : string) (acc z : Z) :
  0 <= acc -> digits_of acc s = Some z -> 0 <= z.
Proof.
  revert acc; induction s as [| c s IH]; intros acc Hacc; cbn.
  - intros [= <-]; exact Hacc.
  - destruct (digit_of c) as [d |] eqn:Ed; [| discriminate].
    apply IH; unfold digit_of in Ed.
    destruct ((48 <=? Z.of_N (Ascii.N_of_ascii c))
              && (Z.of_N (Ascii.N_of_ascii c) <=? 57)) eqn:E; [| discriminate].
    apply andb_true_iff in E as [E1 _]; apply Z.leb_le in E1.
    injection Ed as <-; lia.
Qed.

(** [int_decimal] answers a negative number only for text that starts
    with a minus sign. *)
Lemma int_decimal_negative (s : string) (z : Z) :
  int_decimal s = Some z -> z < 0 ->
  In "-"%char (String.list_ascii_of_string s).
Proof.
  destruct s as [| c s]; [discriminate |].
  unfold int_decimal.
  destruct (Ascii.eqb_spec c "-") as [-> | Hne]; [intros _ _; left; reflexivity |].
  intros Hd Hneg.
  pose proof (digits_of_nonneg _ 0 z ltac:(lia) Hd); lia.
Qed.

Lemma parse_move_not_negative_witness :
  int_decimal "-3" = Some (-3)
  /\ parse_move int_decimal "-3-4" = None
  /\ parse_move int_decimal "3-4" = Some (3, 4)
  /\ 0 <= 3 /\ 0 <= 4.
Proof.
  split; [vm_compute; reflexivity |].
  split; [vm_compute; reflexivity |].
  split; [vm_compute; reflexivity |].
  apply (parse_move_not_negative int_decimal "3-4" 3 4).
  - exact int_decimal_negative.
  - vm_compute; reflexivity.
Defined.

End Moves.

(** ** What the board answers *)

Section Answers.

Import PlayerModel.

(** [is_sunk_all] answers [True] for a board without ships and raises
    AttributeError for every other board; it never answers [False]. *)
Theorem is_sunk_all_outcome (p : t) :
  (ships p = ∅ -> is_sunk_all p = Ret true)
  /\ (ships p <> ∅ -> is_sunk_all p = Raise AttributeError)
  /\ is_sunk_all p <> Ret false.
Proof.
  split; [apply is_sunk_all_no_ships |].
  split; [apply is_sunk_all_raises |].
  unfold is_sunk_all, Py.filter, Py.list_of; cbn.
  destruct (iter_dict (ships p)) as [| k l]; cbn; discriminate.
Qed.

Lemma is_sunk_all_outcome_witness :
  is_sunk_all (init "p1" "s1") = Ret true
  /\ is_sunk_all full_board = Raise AttributeError.
Proof.
  split.
  - apply (proj1 (is_sunk_all_outcome (init "p1" "s1"))); reflexivity.
  - apply (proj1 (proj2 (is_sunk_all_outcome full_board))).
    intros H; apply (f_equal size) in H; vm_compute in H; discriminate.
Defined.

(** Whatever the board and the coordinates, a call of [register_hit] that
    returns answers one of three things: the rejection
    "not_all_ships_added", the rejection "all_ships_already_sunk", or the
    miss; a hit is never reported. *)
Theorem register_hit_answers (p : t) (coords : Z * Z) (r : outcome) :
  (register_hit p coords).2 = Ret r ->
  r = (false, None, Some "not_all_ships_added")
  \/ r = (false, None, Some "all_ships_already_sunk")
  \/ r = (true, Some (mk_hit_data false None false), None).
Proof.
  unfold register_hit.
  destruct (check_all_ships_added p); cbn [negb];
    [| intros [= <-]; left; reflexivity].
  destruct (sunk_all p); [intros [= <-]; right; left; reflexivity |].
  destruct (get_ship_at_coords p coords) as [ship |]; [| discriminate].
  unfold add_grid_attempt; destruct coords as [x y].
  destruct (Np.setitem2 (grid_attempts p) y x _) as [g |]; cbn [Py.bind];
    [| discriminate].
  destruct ship as [[ship_id s] |].
  - rewrite is_sunk_all_raises by (cbn; apply insert_non_empty); discriminate.
  - intros [= <-]; right; right; reflexivity.
Qed.

Lemma register_hit_answers_witness :
  (true, Some (mk_hit_data false None false), None)
  = (false, None, Some "not_all_ships_added")
  \/ (true, Some (mk_hit_data false None false), None)
     = (false, None, Some "all_ships_already_sunk")
  \/ (true, Some (mk_hit_data false None false), None)
     = (true, Some (mk_hit_data false None false), @None string).
Proof.
  apply (register_hit_answers full_board (7, 8)); vm_compute; reflexivity.
Defined.

(** The export of a board for its owner: with no ship placed it carries
    the placement grid and an empty list of ships; with a ship placed it
    raises AttributeError. *)
Theorem export_owner_outcome (p : t) :
  (ships p = ∅ ->
   export p (Some (id p))
   = Ret {| e_id := id p; e_moves_index := moves_index p;
            e_sunk_all := sunk_all p;
            e_grid_attempts := grid p;
            e_grid := Some (grid p); e_ships := Some [] |})
  /\ (ships p <> ∅ -> export p (Some (id p)) = Raise AttributeError).
Proof.
  split; [| apply export_owner_raises].
  intros He; unfold export.
  rewrite bool_decide_eq_true_2 by reflexivity.
  unfold iter_dict; rewrite He, map_to_list_empty; reflexivity.
Qed.

Lemma export_owner_outcome_witness :
  export (init "p1" "s1") (Some "p1")
  = Ret {| e_id := "p1"; e_moves_index := []; e_sunk_all := false;
           e_grid_attempts := Np.zeros 10 10;
           e_grid := Some (Np.zeros 10 10); e_ships := Some [] |}
  /\ export full_board (Some "p1") = Raise AttributeError.
Proof.
  split.
  - apply (proj1 (export_owner_outcome (init "p1" "s1"))); reflexivity.
  - apply (proj2 (export_owner_outcome full_board)).
    intros H; apply (f_equal size) in H; vm_compute in H; discriminate.
Defined.

End Answers.
